(** * The OpenAI MCP server: tool registry, handlers and dispatcher

    A shallow embedding of [openai-mcp-server.js], in four parts:

    - [JS]: the fragment of the JavaScript runtime the server relies on
      (JSON values, truthiness, property reads, string and number coercions,
      [Date.prototype.toISOString]), over an [Engine] that supplies what
      differs between engines;
    - [DecimalText]: number printing and reading, for the engine of Node.js;
    - the server itself: the three entries of [HANDLERS], the discovery
      handler ([listTools]) and the invocation handler ([callTool]), written in
      a small monad that records the upstream HTTP calls in order and carries
      JavaScript exceptions;
    - the properties of the tool-invocation contract, first in general, then
      on the stub upstreams of the specification.

    Conventions.  A JavaScript string is a [string], one [ascii] per code unit.
    A JavaScript number is a binary64 [float].  An object is the list of its
    own properties, each key occurring once.  The upstream API is a function
    from the request [fetch] is given to what [fetch] does with it.

    Logging.  [log] is modelled with what it writes (see Logging).  What it
    writes goes to the standard error stream and to the log file, which the
    handlers do not read, so a handler sees of a call to [log] only whether it
    returns or throws ([logged]).  With [DEBUG] on, [log] joins its
    arguments, and throws when one of them has no string form.  Two calls are
    given a value that came with the request: [chatCompletion] and
    [createEmbedding] print their [model] argument, before they enter their
    [try]; these two calls are part of the handlers below.  Every other call
    is given string literals, the tool name, which is a string, the result of
    [JSON.stringify], the text of a response or a caught error, none of which
    can make [log] throw; those calls return whatever the environment and are
    left out of the handlers. *)

From Stdlib Require Import ZArith String Ascii List Bool Lia.
From Stdlib Require Import DecimalString.
From Stdlib Require Import Floats.PrimFloat Floats.FloatOps Floats.SpecFloat.
From Stdlib Require Import Uint63.
Import ListNotations.
Local Open Scope list_scope.
Local Open Scope string_scope.
Local Open Scope Z_scope.
#[local] Set Warnings "-register-all".

(** ** The JavaScript runtime *)

Module JS.

(** Values that [JSON.parse] produces, together with [undefined] (the value
    of a missing property). *)
Inductive JSValue : Type :=
| JUndefined
| JNull
| JBool (b : bool)
| JNum (x : float)
| JStr (s : string)
| JArr (items : list JSValue)
| JObj (fields : list (string * JSValue)).

(** The members of [Object.prototype], which every object literal inherits. *)
Inductive ObjectPrototypeMember : Type :=
| op_constructor
| op_defineGetter
| op_defineSetter
| op_hasOwnProperty
| op_lookupGetter
| op_lookupSetter
| op_isPrototypeOf
| op_propertyIsEnumerable
| op_toString
| op_valueOf
| op_proto
| op_toLocaleString.

(** Exceptions raised by the runtime itself.  Their message is the engine's
    wording, see [Engine]. *)
Inductive RuntimeFault : Type :=
| ReadOfNullish (base : JSValue) (key : string)
| DestructureOfNullish (base : JSValue) (key : string) (source : string)
| NotAFunction (callee : string)
| NoPrimitiveValue
| InvalidTimeValue
| BadReceiver (member : ObjectPrototypeMember).

(** A thrown value is always an [Error] object here: one built with
    [new Error(message)] (by the server or by a collaborator), or one raised
    by the runtime. *)
Inductive JSError : Type :=
| Err (message : string)
| Fault (f : RuntimeFault).

(** The parts of the runtime that ECMAScript leaves to the engine or that
    need the engine's decimal conversion: the digits of a number that is not a
    safe integer, the number a string denotes, and the wording of the
    runtime's own exceptions. *)
Class Engine : Type := {
  NumberToString : float -> string;
  StringToNumber : string -> float;
  fault_message : RuntimeFault -> string
}.

(** [error.message] *)
Definition error_message {E : Engine} (e : JSError) : string :=
  match e with
  | Err m => m
  | Fault f => fault_message f
  end.

(** The outcome of evaluating an expression: a value, or a thrown error. *)
Inductive Completion (A : Type) : Type :=
| Normal (a : A)
| Throw (e : JSError).
Arguments Normal {A} a.
Arguments Throw {A} e.

Definition cbind {A B} (c : Completion A) (k : A -> Completion B) : Completion B :=
  match c with
  | Normal a => k a
  | Throw e => Throw e
  end.

Notation "'let!' x ':=' c 'in' k" := (cbind c (fun x => k))
  (at level 10, x name, c at level 100, k at level 200).

Fixpoint cmap {A B} (f : A -> Completion B) (l : list A) : Completion (list B) :=
  match l with
  | [] => Normal []
  | a :: rest =>
      let! b := f a in
      let! bs := cmap f rest in
      Normal (b :: bs)
  end.

(** *** Numbers *)

Definition is_nullish (v : JSValue) : bool :=
  match v with
  | JUndefined | JNull => true
  | _ => false
  end.

(** [ToBoolean]: [undefined], [null], [false], [+0], [-0], [NaN] and the empty
    string are falsy; everything else, every array and object included, is
    truthy. *)
Definition truthy (v : JSValue) : bool :=
  match v with
  | JUndefined | JNull => false
  | JBool b => b
  | JNum x => negb (PrimFloat.is_nan x || PrimFloat.is_zero x)
  | JStr s => negb (String.eqb s "")
  | JArr _ | JObj _ => true
  end.

(** [a || b] *)
Definition or_else (a b : JSValue) : JSValue := if truthy a then a else b.

(** The number with integral value [z], for [|z| < 2^63]; exact for
    [|z| <= 2^53]. *)
Definition number_of_Z (z : Z) : float :=
  if (z <? 0)%Z
  then PrimFloat.opp (PrimFloat.of_uint63 (Uint63.of_Z (- z)))
  else PrimFloat.of_uint63 (Uint63.of_Z z).

Definition number_of_nat (n : nat) : float := number_of_Z (Z.of_nat n).

(** [ToIntegerOrInfinity] on a finite number: the value truncated toward
    zero.  [None] for [NaN] and the infinities. *)
Definition truncate (x : float) : option Z :=
  match Prim2SF x with
  | S754_zero _ => Some 0%Z
  | S754_finite s m e =>
      let magnitude :=
        if (0 <=? e)%Z then (Zpos m * 2 ^ e)%Z else (Zpos m / 2 ^ (- e))%Z in
      Some (if s then (- magnitude)%Z else magnitude)
  | S754_infinity _ | S754_nan => None
  end.

(** The integer a number is, when it is one. *)
Definition integral (x : float) : option Z :=
  match Prim2SF x with
  | S754_zero _ => Some 0%Z
  | S754_finite s m e =>
      if (0 <=? e)%Z then Some ((if s then -1 else 1) * (Zpos m * 2 ^ e))%Z
      else if (Zpos m mod 2 ^ (- e) =? 0)%Z
           then Some ((if s then -1 else 1) * (Zpos m / 2 ^ (- e)))%Z
           else None
  | S754_infinity _ | S754_nan => None
  end.

Definition decimal (z : Z) : string := NilZero.string_of_int (Z.to_int z).

(** [Number::toString]: the cases ECMAScript fixes without digit generation
    are spelled out; the engine prints the rest. *)
Definition number_to_string {E : Engine} (x : float) : string :=
  match Prim2SF x with
  | S754_nan => "NaN"
  | S754_zero _ => "0"
  | S754_infinity s => if s then "-Infinity" else "Infinity"
  | S754_finite _ _ _ =>
      match integral x with
      | Some z => if (Z.abs z <=? 2 ^ 53)%Z then decimal z else NumberToString x
      | None => NumberToString x
      end
  end.

(** *** Property reads *)

(** The own property [key] of an object. *)
Fixpoint own (fields : list (string * JSValue)) (key : string) : option JSValue :=
  match fields with
  | [] => None
  | (k, v) :: rest => if String.eqb k key then Some v else own rest key
  end.

Definition own_or_undefined (fields : list (string * JSValue)) (key : string) : JSValue :=
  match own fields key with
  | Some v => v
  | None => JUndefined
  end.

(** [base.key], for the property names the server reads: [data], [choices],
    [message], [content], [model], [usage], [finish_reason], [id], [created],
    [embedding], [length] and the names of the tool arguments.  No prototype
    defines any of them except [length], which arrays and strings have.
    Reading a property of [undefined] or [null] throws. *)
Definition get (base : JSValue) (key : string) : Completion JSValue :=
  match base with
  | JUndefined | JNull => Throw (Fault (ReadOfNullish base key))
  | JObj fields => Normal (own_or_undefined fields key)
  | JArr items =>
      Normal (if String.eqb key "length"
              then JNum (number_of_nat (List.length items)) else JUndefined)
  | JStr s =>
      Normal (if String.eqb key "length"
              then JNum (number_of_nat (String.length s)) else JUndefined)
  | JBool _ | JNum _ => Normal JUndefined
  end.

(** [base[i]] for a literal index [i]. *)
Definition get_index (base : JSValue) (i : nat) : Completion JSValue :=
  match base with
  | JUndefined | JNull => Throw (Fault (ReadOfNullish base (decimal (Z.of_nat i))))
  | JObj fields => Normal (own_or_undefined fields (decimal (Z.of_nat i)))
  | JArr items => Normal (nth i items JUndefined)
  | JStr s =>
      Normal (match String.get i s with
              | Some c => JStr (String c "")
              | None => JUndefined
              end)
  | JBool _ | JNum _ => Normal JUndefined
  end.

(** One name of a destructuring pattern [const { key } = base], where
    [source] is the text of the initialiser. *)
Definition destructure (base : JSValue) (source key : string) : Completion JSValue :=
  if is_nullish base
  then Throw (Fault (DestructureOfNullish base key source))
  else get base key.

(** [Array.isArray] *)
Definition isArray (v : JSValue) : bool :=
  match v with
  | JArr _ => true
  | _ => false
  end.

(** *** Coercions *)

(** [ToString], as a template literal applies it.  An array prints its
    elements separated by commas, [undefined] and [null] as nothing; a plain
    object prints as [[object Object]] unless it has an own [toString]
    property, which no parsed value can make callable: then there is no
    primitive value to be had. *)
Fixpoint to_string {E : Engine} (v : JSValue) : Completion string :=
  match v with
  | JUndefined => Normal "undefined"
  | JNull => Normal "null"
  | JBool b => Normal (if b then "true" else "false")
  | JNum x => Normal (number_to_string x)
  | JStr s => Normal s
  | JArr items =>
      (fix join_items (l : list JSValue) : Completion string :=
         match l with
         | [] => Normal ""
         | item :: rest =>
             let! head := (if is_nullish item then Normal "" else to_string item) in
             match rest with
             | [] => Normal head
             | _ :: _ => let! tail := join_items rest in Normal (head ++ "," ++ tail)
             end
         end) items
  | JObj fields =>
      match own fields "toString" with
      | Some _ => Throw (Fault NoPrimitiveValue)
      | None => Normal "[object Object]"
      end
  end.

(** [ToNumber] *)
Definition to_number {E : Engine} (v : JSValue) : Completion float :=
  match v with
  | JUndefined => Normal PrimFloat.nan
  | JNull => Normal PrimFloat.zero
  | JBool b => Normal (if b then PrimFloat.one else PrimFloat.zero)
  | JNum x => Normal x
  | JStr s => Normal (StringToNumber s)
  | JArr _ | JObj _ => let! s := to_string v in Normal (StringToNumber s)
  end.

(** [v * k] for a numeric literal [k] *)
Definition times {E : Engine} (v : JSValue) (k : float) : Completion float :=
  let! x := to_number v in Normal (PrimFloat.mul x k).

(** [Array.prototype.join] on an array of strings *)
Fixpoint join (sep : string) (l : list string) : string :=
  match l with
  | [] => ""
  | [s] => s
  | s :: rest => s ++ sep ++ join sep rest
  end.

(** *** Dates *)

Definition msPerDay : Z := 86400000.

Definition Day (t : Z) : Z := t / msPerDay.
Definition TimeWithinDay (t : Z) : Z := t mod msPerDay.

Definition DayFromYear (y : Z) : Z :=
  365 * (y - 1970) + (y - 1969) / 4 - (y - 1901) / 100 + (y - 1601) / 400.

Definition InLeapYear (y : Z) : bool :=
  ((y mod 4 =? 0) && negb (y mod 100 =? 0) || (y mod 400 =? 0))%Z.

(** The year a day falls in: the largest [y] with [DayFromYear y <= day],
    found next to the estimate that a mean year of 365.2425 days gives. *)
Definition YearFromDay (day : Z) : Z :=
  let y := 1970 + day * 400 / 146097 in
  if DayFromYear (y + 1) <=? day then y + 1
  else if DayFromYear y <=? day then y
  else y - 1.

(** Month (1 to 12) and day of the month (1 to 31) of the day numbered [d]
    within a year. *)
Definition MonthAndDate (leap : bool) (d : Z) : Z * Z :=
  let l := if leap then 1 else 0 in
  if d <? 31 then (1, d + 1)
  else if d <? 59 + l then (2, d - 30)
  else if d <? 90 + l then (3, d - 58 - l)
  else if d <? 120 + l then (4, d - 89 - l)
  else if d <? 151 + l then (5, d - 119 - l)
  else if d <? 181 + l then (6, d - 150 - l)
  else if d <? 212 + l then (7, d - 180 - l)
  else if d <? 243 + l then (8, d - 211 - l)
  else if d <? 273 + l then (9, d - 242 - l)
  else if d <? 304 + l then (10, d - 272 - l)
  else if d <? 334 + l then (11, d - 303 - l)
  else (12, d - 333 - l).

(** A non-negative integer in at least [width] digits. *)
Definition pad (width : nat) (z : Z) : string :=
  let digits := decimal z in
  String.concat "" (repeat "0" (width - String.length digits)) ++ digits.

(** The text of [toISOString] for a time value [t] in milliseconds. *)
Definition iso_of_time (t : Z) : string :=
  let day := Day(t) in
  let y := YearFromDay day in
  let '(month, date) := MonthAndDate (InLeapYear y) (day - DayFromYear y) in
  let ms := TimeWithinDay t in
  let year :=
    if (0 <=? y) && (y <=? 9999) then pad 4 y
    else (if y <? 0 then "-" else "+") ++ pad 6 (Z.abs y) in
  year ++ "-" ++ pad 2 month ++ "-" ++ pad 2 date ++ "T"
    ++ pad 2 (ms / 3600000) ++ ":" ++ pad 2 (ms / 60000 mod 60) ++ ":"
    ++ pad 2 (ms / 1000 mod 60) ++ "." ++ pad 3 (ms mod 1000) ++ "Z".

(** [TimeClip]: the time value of [new Date(x)] for a number [x], [None]
    when the date is invalid. *)
Definition TimeClip (x : float) : option Z :=
  match truncate x with
  | Some t => if Z.abs t <=? 8640000000000000 then Some t else None
  | None => None
  end.

(** [new Date(x).toISOString()] *)
Definition Date_toISOString (x : float) : Completion string :=
  match TimeClip x with
  | Some t => Normal (iso_of_time t)
  | None => Throw (Fault InvalidTimeValue)
  end.

End JS.

Import JS.

(** ** Numbers and their decimal text

    The conversions between a binary64 number and decimal text, by exact
    integer arithmetic: [print] is [Number::toString], the shortest digits
    that read back as the number, and [parse] is [StringToNumber], rounding to
    the nearest number. *)

Module DecimalText.

(** *** Printing *)

(** [s * 10^p] compared with [a * 2^q], for [s] and [a] not negative. *)
Definition compare_scaled (s p a q : Z) : comparison :=
  Z.compare (s * 10 ^ Z.max p 0 * 2 ^ Z.max (- q) 0)
            (a * 2 ^ Z.max q 0 * 10 ^ Z.max (- p) 0).

(** The largest [s] with [s * 10^p <= a * 2^q]. *)
Definition floor_scaled (a q p : Z) : Z :=
  (a * 2 ^ Z.max q 0 * 10 ^ Z.max (- p) 0) / (10 ^ Z.max p 0 * 2 ^ Z.max (- q) 0).

Section Shortest.

(** The number [m * 2^e], with [m] positive. *)
Variables m e : Z.

(** In units of [2^(e-2)]: the number, and the midpoints to its neighbours. *)
Definition unit_exponent : Z := e - 2.
Definition value : Z := 4 * m.
Definition upper : Z := 4 * m + 2.
Definition lower : Z :=
  if (m =? 2 ^ 52) && (-1074 <? e) then 4 * m - 1 else 4 * m - 2.

(** Does [s * 10^p] round to the number (ties go to the even significand)? *)
Definition rounds_here (s p : Z) : bool :=
  match compare_scaled s p lower unit_exponent, compare_scaled s p upper unit_exponent with
  | Gt, Lt => true
  | Eq, Lt | Gt, Eq => Z.even m
  | _, _ => false
  end.

(** [n] with [10^(n-1) <= m * 2^e < 10^n], from an estimate by the binary
    logarithm. *)
Definition magnitude : Z :=
  let estimate := (Z.log2 m + e) * 1233 / 4096 + 1 in
  let below n := match compare_scaled 1 n value unit_exponent with Gt => true | _ => false end in
  if below (estimate - 1) then estimate - 1
  else if below estimate then estimate
  else if below (estimate + 1) then estimate + 1
  else estimate + 2.

(** The shortest significand: [(s, p)] with [s * 10^p] rounding to the number
    and [s] of as few digits as can be, the nearest such. *)
Fixpoint shortest (fuel : nat) (k : Z) : Z * Z :=
  let p := magnitude - k in
  let low := floor_scaled value unit_exponent p in
  let high := low + 1 in
  match fuel with
  | O => (low, p)
  | S fuel' =>
      match rounds_here low p, rounds_here high p with
      | true, true =>
          match compare_scaled (low + high) p (2 * value) unit_exponent with
          | Gt => (low, p)
          | Lt => (high, p)
          | Eq => (if Z.even low then low else high, p)
          end
      | true, false => (low, p)
      | false, true => (high, p)
      | false, false => shortest fuel' (k + 1)
      end
  end.

End Shortest.

(** [s * 10^p] without the trailing zeros of [s]. *)
Fixpoint strip_zeros (fuel : nat) (s p : Z) : Z * Z :=
  match fuel with
  | O => (s, p)
  | S fuel' => if (s mod 10 =? 0) && negb (s =? 0) then strip_zeros fuel' (s / 10) (p + 1) else (s, p)
  end.

(** [n] zeros *)
Definition zeros (n : Z) : string := String.concat "" (repeat "0" (Z.to_nat n)).

(** [Number::toString] for the positive number with digits [digits] and
    decimal point after the [n]-th. *)
Definition layout (digits : string) (n : Z) : string :=
  let k := Z.of_nat (String.length digits) in
  if (k <=? n) && (n <=? 21) then digits ++ zeros (n - k)
  else if (0 <? n) && (n <=? 21)
  then String.substring 0 (Z.to_nat n) digits ++ "."
         ++ String.substring (Z.to_nat n) (Z.to_nat (k - n)) digits
  else if (-6 <? n) && (n <=? 0) then "0." ++ zeros (- n) ++ digits
  else
    let exponent := (if n - 1 <? 0 then "-" else "+") ++ decimal (Z.abs (n - 1)) in
    if k =? 1 then digits ++ "e" ++ exponent
    else String.substring 0 1 digits ++ "."
           ++ String.substring 1 (Z.to_nat (k - 1)) digits ++ "e" ++ exponent.

(** [Number::toString] in radix 10 *)
Definition print (x : float) : string :=
  match Prim2SF x with
  | S754_nan => "NaN"
  | S754_zero _ => "0"
  | S754_infinity s => if s then "-Infinity" else "Infinity"
  | S754_finite s m e =>
      let '(s0, p0) := shortest (Zpos m) e 17 1 in
      let '(significand, p) := strip_zeros 20 s0 p0 in
      let digits := decimal significand in
      (if s then "-" else "") ++ layout digits (p + Z.of_nat (String.length digits))
  end.

(** *** Reading *)

(** The white space and line terminators among the code units below 256. *)
Definition is_space (c : ascii) : bool :=
  let n := Z.of_nat (nat_of_ascii c) in
  ((9 <=? n) && (n <=? 13)) || (n =? 32) || (n =? 160).

(** [l] without its leading white space *)
Fixpoint trim_left (l : list ascii) : list ascii :=
  match l with
  | c :: rest => if is_space c then trim_left rest else l
  | [] => []
  end.

(** [l] without white space at either end *)
Definition trim (l : list ascii) : list ascii := rev (trim_left (rev (trim_left l))).

(** The value of a digit in a base up to 16. *)
Definition digit (base : Z) (c : ascii) : option Z :=
  let n := Z.of_nat (nat_of_ascii c) in
  let v := if (48 <=? n) && (n <=? 57) then n - 48
           else if (97 <=? n) && (n <=? 102) then n - 87
           else if (65 <=? n) && (n <=? 70) then n - 55
           else 16 in
  if v <? base then Some v else None.

(** The longest prefix of digits: its value, its length, and what follows. *)
Fixpoint digits (base : Z) (l : list ascii) (value count : Z) : Z * Z * list ascii :=
  match l with
  | c :: rest =>
      match digit base c with
      | Some v => digits base rest (value * base + v) (count + 1)
      | None => (value, count, l)
      end
  | [] => (value, count, [])
  end.

(** The number nearest to [num / den], ties to the even significand; [num]
    and [den] positive. *)
Definition nearest (num den : Z) : float :=
  let guess := Z.log2 num - Z.log2 den - 52 in
  let quotient e := (num * 2 ^ Z.max (- e) 0) / (den * 2 ^ Z.max e 0) in
  let e := if 2 ^ 53 <=? quotient guess then guess + 1
           else if quotient guess <? 2 ^ 52 then guess - 1
           else guess in
  let e := Z.max e (-1074) in
  let n := num * 2 ^ Z.max (- e) 0 in
  let d := den * 2 ^ Z.max e 0 in
  let q := n / d in
  let r := n mod d in
  let q := if (d <? 2 * r) || ((d =? 2 * r) && Z.odd q) then q + 1 else q in
  if 1024 <? e then PrimFloat.infinity
  else FloatOps.Z.ldexp (PrimFloat.of_uint63 (Uint63.of_Z q)) e.

(** [x] or its opposite *)
Definition signed (negative : bool) (x : float) : float :=
  if negative then PrimFloat.opp x else x.

(** The number that [significand * 10^exponent] denotes. *)
Definition of_decimal (negative : bool) (significand exponent : Z) : float :=
  signed negative
    (if significand =? 0 then PrimFloat.zero
     else
       let size := Z.log2 significand * 1233 / 4096 + exponent in
       if 400 <? size then PrimFloat.infinity
       else if size <? -400 then PrimFloat.zero
       else if 0 <=? exponent then nearest (significand * 10 ^ exponent) 1
       else nearest significand (10 ^ (- exponent))).

(** The exponent that ends a decimal literal: nothing, or [e] or [E], an
    optional sign and digits.  [None] when [l] is neither. *)
Definition exponent_part (l : list ascii) : option Z :=
  match l with
  | [] => Some 0
  | c :: rest =>
      if (Ascii.eqb c "e") || (Ascii.eqb c "E") then
        let '(negative, rest) :=
          match rest with
          | s :: rest' =>
              if Ascii.eqb s "-" then (true, rest')
              else if Ascii.eqb s "+" then (false, rest')
              else (false, rest)
          | [] => (false, rest)
          end in
        match digits 10 rest 0 0 with
        | (value, count, []) =>
            if 0 <? count then Some (if negative then - value else value) else None
        | _ => None
        end
      else None
  end.

(** A decimal literal after its sign: [Infinity], or digits with an
    optional fraction and exponent, at least one digit before the exponent. *)
Definition unsigned_decimal (negative : bool) (l : list ascii) : float :=
  if String.eqb (string_of_list_ascii l) "Infinity" then signed negative PrimFloat.infinity
  else
    let '(whole, whole_count, rest) := digits 10 l 0 0 in
    let '(significand, fraction_count, rest) :=
      match rest with
      | c :: rest' =>
          if Ascii.eqb c "."
          then let '(value, count, rest'') := digits 10 rest' whole whole_count in
               (value, count - whole_count, rest'')
          else (whole, 0, rest)
      | [] => (whole, 0, rest)
      end in
    if whole_count + fraction_count =? 0 then PrimFloat.nan
    else
      match exponent_part rest with
      | Some exponent => of_decimal negative significand (exponent - fraction_count)
      | None => PrimFloat.nan
      end.

(** The digits of a binary, octal or hexadecimal literal after its prefix. *)
Definition radix_literal (base : Z) (l : list ascii) : float :=
  match digits base l 0 0 with
  | (value, count, []) =>
      if 0 <? count then of_decimal false value 0 else PrimFloat.nan
  | _ => PrimFloat.nan
  end.

(** [StringToNumber] *)
Definition parse (s : string) : float :=
  match trim (list_ascii_of_string s) with
  | [] => PrimFloat.zero
  | c :: rest =>
      if Ascii.eqb c "-" then unsigned_decimal true rest
      else if Ascii.eqb c "+" then unsigned_decimal false rest
      else
        match c, rest with
        | "0"%char, p :: rest' =>
            if (Ascii.eqb p "x") || (Ascii.eqb p "X") then radix_literal 16 rest'
            else if (Ascii.eqb p "o") || (Ascii.eqb p "O") then radix_literal 8 rest'
            else if (Ascii.eqb p "b") || (Ascii.eqb p "B") then radix_literal 2 rest'
            else unsigned_decimal false (c :: rest)
        | _, _ => unsigned_decimal false (c :: rest)
        end
  end.

End DecimalText.

(** ** The server *)

(** *** Collaborators *)

(** The second argument of [fetch], with the URL.  [body] is the value that
    the server hands to [JSON.stringify]. *)
Record HttpRequest : Type := {
  url : string;
  method : string;
  headers : list (string * string);
  body : option JSValue
}.

(** What the server reads of a response.  A handler tests [response.ok],
    then awaits [response.text()] if it is false and [response.json()] if it
    is true; either read may reject. *)
Inductive Response : Type :=
| NotOk (text : Completion string)
| Ok (json : Completion JSValue).

(** [fetch] rejects (no response at all), or resolves to a response. *)
Inductive FetchOutcome : Type :=
| Rejected (e : JSError)
| Responded (r : Response).

(** *** The shapes the server builds *)

Record ContentItem : Type := {
  type : string;
  text : JSValue
}.

(** The object a handler returns.  [metadata] and [isError] are [None] when
    the object has no such property. *)
Record Envelope : Type := {
  content : list ContentItem;
  metadata : option (list (string * JSValue));
  isError : option bool
}.

(** [request.params] of an invocation call. *)
Record CallToolRequest : Type := {
  params_name : string;
  params_arguments : JSValue
}.

(** What the invocation handler resolves to.  It is an envelope whenever one
    of the server's own functions produced it; a tool name that resolves to a
    member of [Object.prototype] can make it something else. *)
Inductive Returned : Type :=
| ReturnedEnvelope (e : Envelope)
| ReturnedString (s : string)
| ReturnedRequest (r : CallToolRequest).

Record ToolDescriptor : Type := {
  name : string;
  description : string;
  inputSchema : JSValue
}.

(** *** Effects *)

(** A computation of the server: it may issue upstream calls, recorded in
    order, and it completes normally or throws. *)
Definition M (A : Type) : Type :=
  list HttpRequest -> Completion A * list HttpRequest.

(** [return a] *)
Definition ret {A} (a : A) : M A := fun calls => (Normal a, calls).

(** [throw e] *)
Definition throw {A} (e : JSError) : M A := fun calls => (Throw e, calls).

(** Sequencing: the second step runs if the first completes normally. *)
Definition bind {A B} (m : M A) (k : A -> M B) : M B :=
  fun calls =>
    match m calls with
    | (Normal a, calls') => k a calls'
    | (Throw e, calls') => (Throw e, calls')
    end.

(** [try { m } catch (error) { handler }] *)
Definition try_catch {A} (m : M A) (handler : JSError -> M A) : M A :=
  fun calls =>
    match m calls with
    | (Normal a, calls') => (Normal a, calls')
    | (Throw e, calls') => handler e calls'
    end.

(** A step that makes no upstream call. *)
Definition lift {A} (c : Completion A) : M A := fun calls => (c, calls).

Notation "x <- m ;; k" := (bind m (fun x => k))
  (at level 61, m at next level, right associativity).

Definition OPENAI_API_URL : string := "https://api.openai.com".

(** The string [\n] *)
Definition newline : string := String (ascii_of_nat 10) "".

(** 0.7, that is the binary64 number nearest to it *)
Definition default_temperature : float := 0x1.6666666666666p-1%float.

(** [{ type: "text", text: v }] *)
Definition text_item (v : JSValue) : ContentItem := {| type := "text"; text := v |}.

(** *** Logging *)

(** The environment variables the server reads besides the API key, [None]
    when a variable is not set. *)
Record Environment : Type := {
  DEBUG : option string;
  HOME : option string;
  USERPROFILE : option string
}.

(** [process.env.DEBUG === "true"] *)
Definition debug (env : Environment) : bool :=
  match DEBUG env with
  | Some value => String.eqb value "true"
  | None => false
  end.

(** What [log] is called with: a string or another parsed value, or a caught
    [Error] object, of which [name] and [message] is what prints. *)
Inductive LogArgument : Type :=
| Plain (v : JSValue)
| ErrorObject (name message : string).

(** What [log] does to the outside: a line on the standard error stream, or
    data appended to a file. *)
Inductive Effect : Type :=
| ConsoleError (line : string)
| AppendFile (path data : string).

(** An element as [Array.prototype.join] prints it: nothing for [undefined]
    and [null], [Error.prototype.toString] for an error. *)
Definition argument_text {E : Engine} (argument : LogArgument) : Completion string :=
  match argument with
  | Plain v => if is_nullish v then Normal "" else to_string v
  | ErrorObject name message =>
      Normal (if String.eqb name "" then message
              else if String.eqb message "" then name
              else name ++ ": " ++ message)
  end.

(** [process.env.HOME || process.env.USERPROFILE] *)
Definition homeDir (env : Environment) : option string :=
  match HOME env with
  | Some home => if String.eqb home "" then USERPROFILE env else Some home
  | None => USERPROFILE env
  end.

(** [homeDir ? `${homeDir}/openai-mcp-server.log` : null] *)
Definition logPath (env : Environment) : option string :=
  match homeDir env with
  | Some directory =>
      if String.eqb directory "" then None
      else Some (directory ++ "/openai-mcp-server.log")
  | None => None
  end.

(** [log(...args)], at the time value [now], over a file system where
    [appendFileSync path data] succeeds ([None]) or throws.  The effects are
    recorded in order. *)
Definition log {E : Engine} (env : Environment) (now : Z)
    (appendFileSync : string -> string -> option JSError)
    (args : list LogArgument) (trace : list Effect) : Completion unit * list Effect :=
  if debug env then
    let timestamp := iso_of_time now in
    match cmap argument_text args with
    | Throw e => (Throw e, trace)
    | Normal texts =>
        let message := "[" ++ timestamp ++ "] " ++ join " " texts in
        let trace := (trace ++ [ConsoleError message])%list in
        match logPath env with
        | Some path =>
            match appendFileSync path (message ++ newline) with
            | None => (Normal tt, (trace ++ [AppendFile path (message ++ newline)])%list)
            | Some err =>
                (Normal tt,
                 (trace ++ [ConsoleError ("[" ++ timestamp ++ "] Error writing to log file: "
                                            ++ error_message err)])%list)
            end
        | None => (Normal tt, trace)
        end
    end
  else (Normal tt, trace).

(** What the caller of [log(...args)] gets back: nothing, or the exception
    of the join.  What [log] writes goes to the standard error stream and to
    the log file, neither of which the handlers read. *)
Definition logged {E : Engine} (env : Environment) (args : list LogArgument)
  : Completion unit :=
  if debug env then let! _ := cmap argument_text args in Normal tt else Normal tt.

(** [log] can print the value: logging is off, or the value has a string
    form. *)
Definition loggable {E : Engine} (env : Environment) (v : JSValue) : Prop :=
  DEBUG env = Some "true" -> exists text, to_string v = Normal text.

Section Server.

Context {E : Engine}.

(** The environment of the process. *)
Variable env : Environment.

(** [process.env.OPENAI_API_KEY], [None] when the variable is not set. *)
Variable OPENAI_API_KEY : option string.

(** The upstream API, as [fetch] sees it. *)
Variable upstream : HttpRequest -> FetchOutcome.

(** [await fetch(url, init)]: one upstream call. *)
Definition fetch (request : HttpRequest) : M Response :=
  fun calls =>
    match upstream request with
    | Rejected e => (Throw e, (calls ++ [request])%list)
    | Responded r => (Normal r, (calls ++ [request])%list)
    end.

(** The [headers] of every call *)
Definition request_headers : list (string * string) :=
  [("Authorization",
    "Bearer " ++ match OPENAI_API_KEY with Some key => key | None => "undefined" end);
   ("Content-Type", "application/json")].

(** The envelope of a handler's [catch] block. *)
Definition handler_error (prefix : string) (error : JSError) : Returned :=
  ReturnedEnvelope
    {| content := [text_item (JStr (prefix ++ error_message error))];
       metadata := Some [];
       isError := Some true |}.

(** *** listModels *)

(** The callback of [data.data.map]. *)
Definition format_model (model : JSValue) : Completion string :=
  let! id := get model "id" in
  let! id_text := to_string id in
  let! created := get model "created" in
  let! ms := times created 1000%float in
  let! stamp := Date_toISOString ms in
  Normal ("- " ++ id_text ++ " (created: " ++ stamp ++ ")").

(** [array.map(callback)] where [source] is the text of [array]. *)
Definition array_map {B} (array : JSValue) (source : string)
    (callback : JSValue -> Completion B) : Completion (list B) :=
  match array with
  | JArr items => cmap callback items
  | JUndefined | JNull => Throw (Fault (ReadOfNullish array "map"))
  | _ => Throw (Fault (NotAFunction (source ++ ".map")))
  end.

(** The call [fetch(`${OPENAI_API_URL}/v1/models`, { method: "GET", headers })] *)
Definition models_call : HttpRequest :=
  {| url := OPENAI_API_URL ++ "/v1/models";
     method := "GET";
     headers := request_headers;
     body := None |}.

Definition listModels : M Returned :=
  try_catch
    (response <- fetch models_call ;;
     match response with
     | NotOk text =>
         error <- lift text ;;
         throw (Err ("OpenAI API error: " ++ error))
     | Ok json =>
       data <- lift json ;;
       models <- lift (get data "data") ;;
       lines <- lift (array_map models "data.data" format_model) ;;
       let formattedModels := join newline lines in
       models' <- lift (get data "data") ;;
       count <- lift (get models' "length") ;;
       ret (ReturnedEnvelope
              {| content :=
                   [text_item (JStr ("Available OpenAI Models:" ++ newline ++ newline
                                       ++ formattedModels))];
                 metadata := Some [("count", count)];
                 isError := None |})
     end)
    (fun error => ret (handler_error "Error listing models: " error)).

(** *** chatCompletion *)

(** [!messages || !Array.isArray(messages) || messages.length === 0] *)
Definition messages_rejected (messages : JSValue) : bool :=
  negb (truthy messages) || negb (isArray messages)
  || match messages with
     | JArr [] => true
     | _ => false
     end.

(** The object [openaiRequest] of [chatCompletion] *)
Definition chat_openaiRequest (model messages temperature max_tokens : JSValue) : JSValue :=
  JObj [("model", or_else model (JStr "gpt-3.5-turbo"));
        ("messages", messages);
        ("temperature",
          match temperature with
          | JUndefined => JNum default_temperature
          | _ => temperature
          end);
        ("max_tokens",
          match max_tokens with
          | JUndefined => JNum 150%float
          | _ => max_tokens
          end);
        ("stream", JBool false)].

(** The call [fetch(`${OPENAI_API_URL}/v1/chat/completions`, ...)] *)
Definition chat_call (openaiRequest : JSValue) : HttpRequest :=
  {| url := OPENAI_API_URL ++ "/v1/chat/completions";
     method := "POST";
     headers := request_headers;
     body := Some openaiRequest |}.

(** The handler: the destructuring of the arguments and the [log] of
    [model] come first, outside the [try]. *)
Definition chatCompletion (request : CallToolRequest) : M Returned :=
  let arguments := params_arguments request in
  let source := "request.params.arguments" in
  model <- lift (destructure arguments source "model") ;;
  messages <- lift (destructure arguments source "messages") ;;
  temperature <- lift (destructure arguments source "temperature") ;;
  max_tokens <- lift (destructure arguments source "max_tokens") ;;
  stream <- lift (destructure arguments source "stream") ;;
  _ <- lift (logged env [Plain (JStr "Executing chatCompletion with model:");
                         Plain model]) ;;
  try_catch
    (if messages_rejected messages
     then throw (Err "Messages array is required and must not be empty")
     else
       let openaiRequest := chat_openaiRequest model messages temperature max_tokens in
       response <- fetch (chat_call openaiRequest) ;;
       match response with
       | NotOk text =>
           errorText <- lift text ;;
           throw (Err ("OpenAI API error: " ++ errorText))
       | Ok json =>
         data <- lift json ;;
         assistantMessage <-
           lift (let! choices := get data "choices" in
                 let! choice := get_index choices 0 in
                 let! message := get choice "message" in
                 get message "content") ;;
         model' <- lift (get data "model") ;;
         usage <- lift (get data "usage") ;;
         finish_reason <-
           lift (let! choices := get data "choices" in
                 let! choice := get_index choices 0 in
                 get choice "finish_reason") ;;
         ret (ReturnedEnvelope
                {| content := [text_item assistantMessage];
                   metadata := Some [("model", model');
                                     ("usage", usage);
                                     ("finish_reason", finish_reason)];
                   isError := None |})
       end)
    (fun error => ret (handler_error "Error: " error)).

(** *** createEmbedding *)

(** The object [openaiRequest] of [createEmbedding] *)
Definition embedding_openaiRequest (model input : JSValue) : JSValue :=
  JObj [("model", or_else model (JStr "text-embedding-ada-002"));
        ("input", input)].

(** The call [fetch(`${OPENAI_API_URL}/v1/embeddings`, ...)] *)
Definition embedding_call (openaiRequest : JSValue) : HttpRequest :=
  {| url := OPENAI_API_URL ++ "/v1/embeddings";
     method := "POST";
     headers := request_headers;
     body := Some openaiRequest |}.

(** The handler; as in [chatCompletion], the destructuring and the [log] of
    [model] are outside the [try]. *)
Definition createEmbedding (request : CallToolRequest) : M Returned :=
  let arguments := params_arguments request in
  let source := "request.params.arguments" in
  model <- lift (destructure arguments source "model") ;;
  input <- lift (destructure arguments source "input") ;;
  _ <- lift (logged env [Plain (JStr "Executing createEmbedding with model:");
                         Plain model]) ;;
  try_catch
    (if negb (truthy input)
     then throw (Err "Input is required")
     else
       let openaiRequest := embedding_openaiRequest model input in
       response <- fetch (embedding_call openaiRequest) ;;
       match response with
       | NotOk text =>
           errorText <- lift text ;;
           throw (Err ("OpenAI API error: " ++ errorText))
       | Ok json =>
         data <- lift json ;;
         dimension <-
           lift (let! rows := get data "data" in
                 let! row := get_index rows 0 in
                 let! embedding := get row "embedding" in
                 let! length := get embedding "length" in
                 to_string length) ;;
         model' <- lift (get data "model") ;;
         usage <- lift (get data "usage") ;;
         ret (ReturnedEnvelope
                {| content :=
                     [text_item (JStr ("Embedding generated successfully. Vector dimension: "
                                         ++ dimension))];
                   metadata := Some [("model", model'); ("usage", usage)];
                   isError := None |})
       end)
    (fun error => ret (handler_error "Error: " error)).

(** *** The registry of handlers *)

(** The own properties of the object literal [HANDLERS], in declaration
    order.  [listModels] takes no parameter and ignores the request. *)
Definition HANDLERS : list (string * (CallToolRequest -> M Returned)) :=
  [("listModels", fun _ => listModels);
   ("chatCompletion", chatCompletion);
   ("createEmbedding", createEmbedding)].

(** The properties [HANDLERS] inherits, being an object literal. *)
Definition Object_prototype : list (string * ObjectPrototypeMember) :=
  [("constructor", op_constructor);
   ("__defineGetter__", op_defineGetter);
   ("__defineSetter__", op_defineSetter);
   ("hasOwnProperty", op_hasOwnProperty);
   ("__lookupGetter__", op_lookupGetter);
   ("__lookupSetter__", op_lookupSetter);
   ("isPrototypeOf", op_isPrototypeOf);
   ("propertyIsEnumerable", op_propertyIsEnumerable);
   ("toString", op_toString);
   ("valueOf", op_valueOf);
   ("__proto__", op_proto);
   ("toLocaleString", op_toLocaleString)].

(** The entry of a table of properties under [key]. *)
Fixpoint assoc {A} (table : list (string * A)) (key : string) : option A :=
  match table with
  | [] => None
  | (k, a) :: rest => if String.eqb k key then Some a else assoc rest key
  end.

(** What [HANDLERS[toolName]] evaluates to. *)
Inductive Looked : Type :=
| OwnHandler (handler : CallToolRequest -> M Returned)
| Inherited (member : ObjectPrototypeMember)
| NotFound.

Definition HANDLERS_get (toolName : string) : Looked :=
  match assoc HANDLERS toolName with
  | Some handler => OwnHandler handler
  | None =>
      match assoc Object_prototype toolName with
      | Some member => Inherited member
      | None => NotFound
      end
  end.

(** [member(request)]: a member of [Object.prototype] called as a plain
    function, so with [this] undefined, on the request object.
    [Object.prototype.toString] answers for [undefined]; [Object] returns the
    object it is given; [__proto__] is [Object.prototype] itself, which is
    not callable; the other members need a receiver or a callable argument. *)
Definition call_inherited (member : ObjectPrototypeMember) (request : CallToolRequest)
  : Completion Returned :=
  match member with
  | op_toString => Normal (ReturnedString "[object Undefined]")
  | op_constructor => Normal (ReturnedRequest request)
  | op_proto => Throw (Fault (NotAFunction "handler"))
  | _ => Throw (Fault (BadReceiver member))
  end.

(** *** The discovery handler *)

Definition LIST_MODELS_TOOL : ToolDescriptor :=
  {| name := "listModels";
     description := "List available OpenAI models";
     inputSchema :=
       JObj [("type", JStr "object");
             ("properties", JObj []);
             ("required", JArr [])] |}.

Definition CHAT_COMPLETION_TOOL : ToolDescriptor :=
  {| name := "chatCompletion";
     description := "Generate a response using OpenAI's chat completion API";
     inputSchema :=
       JObj [("type", JStr "object");
             ("properties",
               JObj [("model",
                       JObj [("type", JStr "string");
                             ("description",
                               JStr "The model to use (e.g., gpt-3.5-turbo, gpt-4)")]);
                     ("messages",
                       JObj [("type", JStr "array");
                             ("description", JStr "The conversation messages");
                             ("items",
                               JObj [("type", JStr "object");
                                     ("properties",
                                       JObj [("role",
                                               JObj [("type", JStr "string");
                                                     ("description",
                                                       JStr "The role of the message sender (system, user, assistant)")]);
                                             ("content",
                                               JObj [("type", JStr "string");
                                                     ("description",
                                                       JStr "The content of the message")])])])]);
                     ("temperature",
                       JObj [("type", JStr "number");
                             ("description", JStr "Controls randomness (0-1)")]);
                     ("max_tokens",
                       JObj [("type", JStr "number");
                             ("description",
                               JStr "Maximum number of tokens to generate")])]);
             ("required", JArr [JStr "messages"])] |}.

Definition CREATE_EMBEDDING_TOOL : ToolDescriptor :=
  {| name := "createEmbedding";
     description := "Generate embeddings for text using OpenAI's embedding API";
     inputSchema :=
       JObj [("type", JStr "object");
             ("properties",
               JObj [("model",
                       JObj [("type", JStr "string");
                             ("description",
                               JStr "The model to use (e.g., text-embedding-ada-002)")]);
                     ("input",
                       JObj [("type", JArr [JStr "string"; JStr "array"]);
                             ("description",
                               JStr "The text to embed, can be a string or array of strings")])]);
             ("required", JArr [JStr "input"])] |}.

(** The handler of [ListToolsRequestSchema]; the result is its [tools]. *)
Definition listTools : M (list ToolDescriptor) :=
  ret [LIST_MODELS_TOOL; CHAT_COMPLETION_TOOL; CREATE_EMBEDDING_TOOL].

(** *** The invocation handler *)

(** The handler of [CallToolRequestSchema]. *)
Definition callTool (request : CallToolRequest) : M Returned :=
  let toolName := params_name request in
  try_catch
    (match HANDLERS_get toolName with
     | NotFound => throw (Err ("Unknown tool: " ++ toolName))
     | OwnHandler handler => handler request
     | Inherited member => lift (call_inherited member request)
     end)
    (fun error =>
       ret (ReturnedEnvelope
              {| content := [text_item (JStr ("Error: " ++ error_message error))];
                 metadata := None;
                 isError := Some true |})).

End Server.

(** *** The requests a valid invocation issues *)

(** The call [chatCompletion] makes for the argument object [fields]. *)
Definition chat_call_of (key : option string) (fields : list (string * JSValue)) : HttpRequest :=
  chat_call key
    (chat_openaiRequest (own_or_undefined fields "model")
                        (own_or_undefined fields "messages")
                        (own_or_undefined fields "temperature")
                        (own_or_undefined fields "max_tokens")).

(** The call [createEmbedding] makes for the argument object [fields]. *)
Definition embedding_call_of (key : option string) (fields : list (string * JSValue)) : HttpRequest :=
  embedding_call key
    (embedding_openaiRequest (own_or_undefined fields "model")
                             (own_or_undefined fields "input")).

(** A property of the body of an outbound request. *)
Definition body_field (request : HttpRequest) (key : string) : option JSValue :=
  match body request with
  | Some (JObj fields) => own fields key
  | _ => None
  end.

(** An invocation call. *)
Definition invocation (toolName : string) (arguments : JSValue) : CallToolRequest :=
  {| params_name := toolName; params_arguments := arguments |}.

(** The error envelope of a handler's own [catch]. *)
Definition error_envelope (message : string) : Envelope :=
  {| content := [text_item (JStr message)]; metadata := Some []; isError := Some true |}.

(** The run returns an envelope, and the envelope satisfies [P]. *)
Definition returns_envelope_with (run : Completion Returned * list HttpRequest)
    (P : Envelope -> Prop) : Prop :=
  match fst run with
  | Normal (ReturnedEnvelope envelope) => P envelope
  | _ => False
  end.

(** The error envelope of the invocation handler's [catch]. *)
Definition dispatch_error_envelope (message : string) : Envelope :=
  {| content := [text_item (JStr message)]; metadata := None; isError := Some true |}.

(** A model entry of the upstream list that [listModels] prints as [line]:
    an object with a string [id] and a number [created] for which
    [created * 1000] is a valid time value. *)
Definition formats_as (model : JSValue) (line : string) : Prop :=
  exists fields id created t,
    model = JObj fields
    /\ own_or_undefined fields "id" = JStr id
    /\ own_or_undefined fields "created" = JNum created
    /\ TimeClip (PrimFloat.mul created 1000%float) = Some t
    /\ line = "- " ++ id ++ " (created: " ++ iso_of_time t ++ ")".

(** An envelope with one text item and a [metadata] property. *)
Definition full_envelope (returned : Returned) : Prop :=
  exists v properties flag,
    returned = ReturnedEnvelope
                 {| content := [text_item v]; metadata := Some properties; isError := flag |}.

(** *** What a descriptor asks for *)

(** The names under [required] in the input schema of a tool. *)
Definition required_arguments (tool : ToolDescriptor) : list string :=
  match inputSchema tool with
  | JObj schema =>
      match own_or_undefined schema "required" with
      | JArr names =>
          flat_map (fun v => match v with JStr s => [s] | _ => [] end) names
      | _ => []
      end
  | _ => []
  end.

(** The calls an invocation can add to the record: none, or one of the
    three the handlers make. *)
Definition issued (key : option string) (delta : list HttpRequest) : Prop :=
  delta = []
  \/ delta = [models_call key]
  \/ (exists openaiRequest, delta = [chat_call key openaiRequest])
  \/ (exists openaiRequest, delta = [embedding_call key openaiRequest]).

(** An error envelope: [isError] is true and the text starts with [Error]. *)
Definition reports_error (envelope : Envelope) : Prop :=
  isError envelope = Some true
  /\ exists rest, content envelope = [text_item (JStr ("Error" ++ rest))].

(** A success envelope, after the calls [calls], with the calls [calls']
    made: it has no [isError] but has [metadata], and one call was added,
    which the upstream answered with success and a body that parses. *)
Definition reports_success (upstream : HttpRequest -> FetchOutcome)
    (calls calls' : list HttpRequest) (envelope : Envelope) : Prop :=
  isError envelope = None
  /\ metadata envelope <> None
  /\ exists call data,
       calls' = (calls ++ [call])%list
       /\ upstream call = Responded (Ok (Normal data)).

(** The upstream fails the call with the error [e]: [fetch] rejects, or the
    read of the body does. *)
Definition rejects_with (upstream : HttpRequest -> FetchOutcome) (call : HttpRequest)
    (e : JSError) : Prop :=
  upstream call = Rejected e
  \/ upstream call = Responded (NotOk (Throw e))
  \/ upstream call = Responded (Ok (Throw e)).

(** The value of the [Authorization] header. *)
Definition bearer (key : option string) : string :=
  "Bearer " ++ match key with Some k => k | None => "undefined" end.

(** A file system on which nothing can be written. *)
Definition read_only : string -> string -> option JSError :=
  fun _ _ => Some (Err "EACCES: permission denied").

(** A file system that takes every write. *)
Definition writable : string -> string -> option JSError := fun _ _ => None.

(** ** Fixtures *)

Definition nullish_name (v : JSValue) : string :=
  match v with
  | JNull => "null"
  | _ => "undefined"
  end.

(** The wording of V8 for the runtime's exceptions.  A member of
    [Object.prototype] called without a receiver fails where it converts
    [this] to an object, except [toLocaleString], which names itself. *)
Definition v8_message (f : RuntimeFault) : string :=
  match f with
  | ReadOfNullish base key =>
      "Cannot read properties of " ++ nullish_name base ++ " (reading '" ++ key ++ "')"
  | DestructureOfNullish base key source =>
      "Cannot destructure property '" ++ key ++ "' of '" ++ source
        ++ "' as it is " ++ nullish_name base ++ "."
  | NotAFunction callee => callee ++ " is not a function"
  | NoPrimitiveValue => "Cannot convert object to primitive value"
  | InvalidTimeValue => "Invalid time value"
  | BadReceiver op_toLocaleString =>
      "Object.prototype.toLocaleString called on null or undefined"
  | BadReceiver _ => "Cannot convert undefined or null to object"
  end.

(** The engine of Node.js. *)
#[export] Instance Node : Engine :=
  {| NumberToString := DecimalText.print;
     StringToNumber := DecimalText.parse;
     fault_message := v8_message |}.

(** An upstream that answers every call with the same response. *)
Definition stub_upstream (response : Response) : HttpRequest -> FetchOutcome :=
  fun _ => Responded response.

(** An upstream that cannot be reached. *)
Definition no_upstream : HttpRequest -> FetchOutcome :=
  fun _ => Rejected (Err "fetch failed").

(** The arguments of a minimal chat invocation. *)
Definition hello : list (string * JSValue) :=
  [("messages", JArr [JObj [("role", JStr "user"); ("content", JStr "Hello")]])].

(** The body of a models listing with two entries. *)
Definition two_models : JSValue :=
  JObj [("data",
          JArr [JObj [("id", JStr "m1"); ("created", JNum 0%float)];
                JObj [("id", JStr "m2"); ("created", JNum 100%float)]])].

(** The properties of the body of a chat completion with one choice. *)
Definition one_choice : list (string * JSValue) :=
  [("model", JStr "x");
   ("choices",
     JArr [JObj [("message", JObj [("content", JStr "hi")]);
                 ("finish_reason", JStr "stop")]]);
   ("usage",
     JObj [("prompt_tokens", JNum 3%float); ("completion_tokens", JNum 1%float)])].


(** The properties of the body of an embeddings answer with one vector of
    three numbers. *)
Definition one_embedding : list (string * JSValue) :=
  [("model", JStr "text-embedding-ada-002");
   ("data", JArr [JObj [("embedding", JArr [JNum 1%float; JNum 2%float; JNum 3%float])]]);
   ("usage", JObj [("total_tokens", JNum 2%float)])].

(** A models listing whose second entry has no creation time. *)
Definition undated_model : list (string * JSValue) :=
  [("data",
     JArr [JObj [("id", JStr "m1"); ("created", JNum 0%float)];
           JObj [("id", JStr "m2")];
           JObj [("id", JStr "m3"); ("created", JNum 100%float)]])].

(** An environment in which none of the variables is set. *)
Definition quiet : Environment :=
  {| DEBUG := None; HOME := None; USERPROFILE := None |}.

(** An environment with [DEBUG] on, an empty [HOME] and a [USERPROFILE]. *)
Definition debugging : Environment :=
  {| DEBUG := Some "true"; HOME := Some ""; USERPROFILE := Some "/home/me" |}.

(** An environment where [DEBUG] is set, but not to [true]. *)
Definition shouting : Environment :=
  {| DEBUG := Some "TRUE"; HOME := Some "/home/me"; USERPROFILE := None |}.

(** ** Properties *)

(** *** Dates *)

(** [YearFromDay] is the year of the day: the largest year that starts on or
    before it. *)
Lemma YearFromDay_spec day :
  DayFromYear (YearFromDay day) <= day < DayFromYear (YearFromDay day + 1).
Proof.
  unfold YearFromDay.
  set (y := 1970 + day * 400 / 146097).
  assert (Hy : 146097 * (y - 1970) <= day * 400 < 146097 * (y - 1970) + 146097).
  { subst y. pose proof (Z.mul_div_le (day * 400) 146097 ltac:(lia)).
    pose proof (Z.mul_succ_div_gt (day * 400) 146097 ltac:(lia)). lia. }
  clearbody y.
  destruct (Z.leb_spec (DayFromYear (y + 1)) day) as [H1 | H1].
  - split; [exact H1 |]. unfold DayFromYear in *.
    Z.div_mod_to_equations; lia.
  - destruct (Z.leb_spec (DayFromYear y) day) as [H2 | H2].
    + split; [exact H2 | exact H1].
    + split; [| replace (y - 1 + 1) with y by lia; exact H2].
      unfold DayFromYear in *. Z.div_mod_to_equations; lia.
Qed.

(** A year has 366 days when it is a leap year and 365 otherwise. *)
Lemma DaysInYear y :
  DayFromYear (y + 1) - DayFromYear y = if InLeapYear y then 366 else 365.
Proof.
  unfold DayFromYear, InLeapYear.
  destruct (Z.eqb_spec (y mod 4) 0), (Z.eqb_spec (y mod 100) 0),
    (Z.eqb_spec (y mod 400) 0); cbn [andb orb negb];
    Z.div_mod_to_equations; lia.
Qed.

(** Within a year, the month is between 1 and 12 and the date between 1 and
    31. *)
Lemma MonthAndDate_range (leap : bool) d :
  0 <= d < (if leap then 366 else 365) ->
  1 <= fst (MonthAndDate leap d) <= 12 /\ 1 <= snd (MonthAndDate leap d) <= 31.
Proof.
  intros Hd. unfold MonthAndDate.
  destruct leap;
    repeat match goal with
           | |- context [?a <? ?b] => destruct (Z.ltb_spec a b)
           end; cbn [fst snd]; lia.
Qed.

(** The day of the year that [iso_of_time] splits into month and date is
    within the year. *)
Lemma day_within_year t :
  let y := YearFromDay (Day t) in
  0 <= Day t - DayFromYear y < (if InLeapYear y then 366 else 365).
Proof.
  intros y. pose proof (YearFromDay_spec (Day t)) as H. fold y in H.
  rewrite <- DaysInYear. lia.
Qed.

(** *** Decimal text *)

Example print_default_temperature : DecimalText.print default_temperature = "0.7".
Proof. vm_compute. reflexivity. Qed.

Example parse_default_temperature : DecimalText.parse "0.7" = default_temperature.
Proof. vm_compute. reflexivity. Qed.

Example print_large : DecimalText.print (PrimFloat.mul 1e11 1e11)%float = "1e+22".
Proof. vm_compute. reflexivity. Qed.

Example print_small : DecimalText.print (PrimFloat.div 1 10000000)%float = "1e-7".
Proof. vm_compute. reflexivity. Qed.

Example parse_hexadecimal : DecimalText.parse " 0x1F " = 31%float.
Proof. vm_compute. reflexivity. Qed.

Example parse_object_text : Prim2SF (DecimalText.parse "[object Object]") = S754_nan.
Proof. vm_compute. reflexivity. Qed.

(** *** The monad *)

Lemma bind_ret {A B} (a : A) (k : A -> M B) : bind (ret a) k = k a.
Proof. reflexivity. Qed.

Lemma bind_lift_normal {A B} (a : A) (k : A -> M B) : bind (lift (Normal a)) k = k a.
Proof. reflexivity. Qed.

Lemma bind_lift_throw {A B} (e : JSError) (k : A -> M B) calls :
  bind (lift (Throw e)) k calls = (Throw e, calls).
Proof. reflexivity. Qed.

Lemma bind_assoc {A B C} (m : M A) (k : A -> M B) (h : B -> M C) calls :
  bind (bind m k) h calls = bind m (fun a => bind (k a) h) calls.
Proof.
  unfold bind. destruct (m calls) as [[a | e] calls']; reflexivity.
Qed.

Lemma try_catch_normal {A} (m : M A) handler calls a calls' :
  m calls = (Normal a, calls') -> try_catch m handler calls = (Normal a, calls').
Proof. intros H. unfold try_catch. rewrite H. reflexivity. Qed.

Lemma try_catch_throw {A} (m : M A) handler calls e calls' :
  m calls = (Throw e, calls') -> try_catch m handler calls = handler e calls'.
Proof. intros H. unfold try_catch. rewrite H. reflexivity. Qed.

(** A [try] whose [catch] block returns cannot throw. *)
Lemma try_catch_returns {A} (m : M A) (recover : JSError -> A) calls :
  exists a calls',
    try_catch m (fun error => ret (recover error)) calls = (Normal a, calls').
Proof.
  unfold try_catch, ret. destruct (m calls) as [[a | e] calls'].
  - exists a, calls'. reflexivity.
  - exists (recover e), calls'. reflexivity.
Qed.

(** *** Reads *)

Lemma get_of_object fields key : get (JObj fields) key = Normal (own_or_undefined fields key).
Proof. reflexivity. Qed.

Lemma destructure_object fields source key :
  destructure (JObj fields) source key = Normal (own_or_undefined fields key).
Proof. reflexivity. Qed.

(** A base that one property can be read of lets every property be read. *)
Lemma get_total base key v key' :
  get base key = Normal v -> exists v', get base key' = Normal v'.
Proof.
  destruct base; simpl; intros H; try discriminate; eauto.
Qed.

Lemma own_or_undefined_absent fields key :
  own fields key = None -> own_or_undefined fields key = JUndefined.
Proof. intros H. unfold own_or_undefined. rewrite H. reflexivity. Qed.

(** A base that one property can be read of is destructured by reading. *)
Lemma destructure_get base key v :
  get base key = Normal v ->
  forall source key', destructure base source key' = get base key'.
Proof.
  destruct base; simpl; intros H; try discriminate; reflexivity.
Qed.

Lemma get_present base key v : get base key = Normal v -> is_nullish base = false.
Proof.
  destruct base; simpl; intros H; try discriminate; reflexivity.
Qed.

Lemma get_of_present base key :
  is_nullish base = false -> exists v, get base key = Normal v.
Proof.
  destruct base; simpl; intros H; try discriminate; eauto.
Qed.

(** *** What a handler sees of [log] *)

Lemma debug_on env : debug env = true <-> DEBUG env = Some "true".
Proof.
  unfold debug. destruct (DEBUG env) as [value |].
  - rewrite String.eqb_eq. split; [intros -> | intros [= ->]]; reflexivity.
  - split; discriminate.
Qed.

(** [logged] is the completion of [log], whatever the time and the file
    system. *)
Lemma log_returns_logged {E : Engine} env now appendFileSync args trace :
  fst (log env now appendFileSync args trace) = logged env args.
Proof.
  unfold log, logged. destruct (debug env); [| reflexivity].
  destruct (cmap argument_text args) as [texts | e]; cbn [cbind]; [| reflexivity].
  destruct (logPath env) as [path |]; [| reflexivity].
  destruct (appendFileSync path _); reflexivity.
Qed.

(** An exception of [log] leaves no effect behind. *)
Lemma log_throws_cleanly {E : Engine} env now appendFileSync args trace e :
  logged env args = Throw e ->
  log env now appendFileSync args trace = (Throw e, trace).
Proof.
  unfold log, logged. destruct (debug env); [| discriminate].
  destruct (cmap argument_text args) as [texts | e']; cbn [cbind]; [discriminate |].
  intros [= ->]. reflexivity.
Qed.

(** The text of a value under [join] is its string form, when it has one. *)
Lemma argument_text_of_value {E : Engine} v text :
  to_string v = Normal text -> exists text', argument_text (Plain v) = Normal text'.
Proof.
  intros H. cbn [argument_text]. destruct (is_nullish v); eauto.
Qed.

(** [log] of a label and a value returns when the value is printable. *)
Lemma logged_model {E : Engine} env label model :
  loggable env model ->
  logged env [Plain (JStr label); Plain model] = Normal tt.
Proof.
  intros Hlog. unfold logged. destruct (debug env) eqn:Hdebug; [| reflexivity].
  apply debug_on in Hdebug. destruct (Hlog Hdebug) as [text Htext].
  cbn [cmap argument_text is_nullish to_string cbind].
  destruct (is_nullish model); [reflexivity |]. rewrite Htext. reflexivity.
Qed.

(** It throws when [DEBUG] is on and the value has no string form, and only
    then. *)
Lemma logged_model_throws {E : Engine} env label model e :
  logged env [Plain (JStr label); Plain model] = Throw e <->
  DEBUG env = Some "true" /\ to_string model = Throw e.
Proof.
  unfold logged. split.
  - destruct (debug env) eqn:Hdebug; [| discriminate].
    apply debug_on in Hdebug.
    cbn [cmap argument_text is_nullish to_string cbind].
    destruct (is_nullish model); [discriminate |].
    destruct (to_string model) as [text | e']; cbn [cbind]; [discriminate |].
    intros [= ->]. auto.
  - intros [Hdebug Hthrows]. rewrite (proj2 (debug_on env) Hdebug).
    cbn [cmap argument_text is_nullish to_string cbind].
    destruct model; cbn [is_nullish]; try discriminate Hthrows;
      rewrite Hthrows; reflexivity.
Qed.

(** [log] of a label and a value returns or throws. *)
Lemma logged_model_cases {E : Engine} env label model :
  (loggable env model /\ logged env [Plain (JStr label); Plain model] = Normal tt)
  \/ exists e,
       DEBUG env = Some "true" /\ to_string model = Throw e
       /\ logged env [Plain (JStr label); Plain model] = Throw e.
Proof.
  destruct (logged env [Plain (JStr label); Plain model]) as [[] | e] eqn:Hlogged.
  - left. split; [| reflexivity]. intros Hdebug.
    destruct (to_string model) as [text | e] eqn:Htext; [eauto |].
    rewrite (proj2 (logged_model_throws env label model e) (conj Hdebug Htext)) in Hlogged.
    discriminate Hlogged.
  - right. exists e. apply logged_model_throws in Hlogged as Hwhy.
    destruct Hwhy as [Hdebug Htext]. auto.
Qed.

(** A value that [log] cannot print is not loggable. *)
Lemma unprintable_not_loggable {E : Engine} env model e :
  DEBUG env = Some "true" -> to_string model = Throw e -> ~ loggable env model.
Proof.
  intros Hdebug Hthrows Hlog. destruct (Hlog Hdebug) as [text Htext]. congruence.
Qed.

(** Falsy values are printable, and so is every string. *)
Lemma falsy_is_loggable {E : Engine} env v : truthy v = false -> loggable env v.
Proof.
  intros H _. destruct v; cbn [truthy] in H; try discriminate; cbn [to_string]; eauto.
Qed.

Lemma string_is_loggable {E : Engine} env s : loggable env (JStr s).
Proof. intros _. exists s. reflexivity. Qed.

(** *** The registry *)

Section Registry.

Context {E : Engine}.
Variable env : Environment.
Variable OPENAI_API_KEY : option string.
Variable upstream : HttpRequest -> FetchOutcome.

Ltac compare_names name :=
  repeat match goal with
         | |- context [String.eqb ?k name] =>
             destruct (String.eqb_spec k name) as [<- | ?];
             [ try discriminate; try congruence | ]
         end.

(** A name that is neither a handler nor a member of [Object.prototype]
    resolves to nothing. *)
Lemma HANDLERS_get_not_found name :
  name <> "listModels" -> name <> "chatCompletion" -> name <> "createEmbedding" ->
  assoc Object_prototype name = None ->
  HANDLERS_get env OPENAI_API_KEY upstream name = NotFound.
Proof.
  intros H1 H2 H3 H. unfold HANDLERS_get, HANDLERS. rewrite H. cbn [assoc].
  compare_names name. reflexivity.
Qed.

Lemma HANDLERS_get_listModels :
  HANDLERS_get env OPENAI_API_KEY upstream "listModels"
  = OwnHandler (fun _ => listModels OPENAI_API_KEY upstream).
Proof. reflexivity. Qed.

Lemma HANDLERS_get_chatCompletion :
  HANDLERS_get env OPENAI_API_KEY upstream "chatCompletion"
  = OwnHandler (chatCompletion env OPENAI_API_KEY upstream).
Proof. reflexivity. Qed.

Lemma HANDLERS_get_createEmbedding :
  HANDLERS_get env OPENAI_API_KEY upstream "createEmbedding"
  = OwnHandler (createEmbedding env OPENAI_API_KEY upstream).
Proof. reflexivity. Qed.

(** The invocation handler always resolves: whatever the tool name, the
    arguments and the upstream, no exception leaves it. *)
Lemma callTool_completes request calls :
  exists returned calls',
    callTool env OPENAI_API_KEY upstream request calls = (Normal returned, calls').
Proof.
  unfold callTool. apply try_catch_returns.
Qed.

(** What a registered handler returns normally, the invocation returns. *)
Lemma callTool_forwards request handler calls returned calls' :
  HANDLERS_get env OPENAI_API_KEY upstream (params_name request) = OwnHandler handler ->
  handler request calls = (Normal returned, calls') ->
  callTool env OPENAI_API_KEY upstream request calls = (Normal returned, calls').
Proof.
  intros Hget Hrun. unfold callTool. rewrite Hget.
  apply try_catch_normal. exact Hrun.
Qed.

Lemma callTool_listModels arguments calls returned calls' :
  listModels OPENAI_API_KEY upstream calls = (Normal returned, calls') ->
  callTool env OPENAI_API_KEY upstream (invocation "listModels" arguments) calls
  = (Normal returned, calls').
Proof.
  apply (callTool_forwards (invocation "listModels" arguments)
           (fun _ => listModels OPENAI_API_KEY upstream)).
  reflexivity.
Qed.

Lemma callTool_chatCompletion arguments calls returned calls' :
  chatCompletion env OPENAI_API_KEY upstream (invocation "chatCompletion" arguments) calls
  = (Normal returned, calls') ->
  callTool env OPENAI_API_KEY upstream (invocation "chatCompletion" arguments) calls
  = (Normal returned, calls').
Proof.
  apply (callTool_forwards (invocation "chatCompletion" arguments)). reflexivity.
Qed.

Lemma callTool_createEmbedding arguments calls returned calls' :
  createEmbedding env OPENAI_API_KEY upstream (invocation "createEmbedding" arguments) calls
  = (Normal returned, calls') ->
  callTool env OPENAI_API_KEY upstream (invocation "createEmbedding" arguments) calls
  = (Normal returned, calls').
Proof.
  apply (callTool_forwards (invocation "createEmbedding" arguments)). reflexivity.
Qed.

(** What a registered handler throws, the [catch] of the invocation handler
    reports, in an envelope without [metadata]. *)
Lemma callTool_catches request handler calls e calls' :
  HANDLERS_get env OPENAI_API_KEY upstream (params_name request) = OwnHandler handler ->
  handler request calls = (Throw e, calls') ->
  callTool env OPENAI_API_KEY upstream request calls
  = (Normal (ReturnedEnvelope (dispatch_error_envelope ("Error: " ++ error_message e))),
     calls').
Proof.
  intros Hget Hrun. unfold callTool. rewrite Hget.
  unfold try_catch. rewrite Hrun. reflexivity.
Qed.

Lemma callTool_chatCompletion_throws arguments calls e calls' :
  chatCompletion env OPENAI_API_KEY upstream (invocation "chatCompletion" arguments) calls
  = (Throw e, calls') ->
  callTool env OPENAI_API_KEY upstream (invocation "chatCompletion" arguments) calls
  = (Normal (ReturnedEnvelope (dispatch_error_envelope ("Error: " ++ error_message e))),
     calls').
Proof.
  apply (callTool_catches (invocation "chatCompletion" arguments)). reflexivity.
Qed.

Lemma callTool_createEmbedding_throws arguments calls e calls' :
  createEmbedding env OPENAI_API_KEY upstream (invocation "createEmbedding" arguments) calls
  = (Throw e, calls') ->
  callTool env OPENAI_API_KEY upstream (invocation "createEmbedding" arguments) calls
  = (Normal (ReturnedEnvelope (dispatch_error_envelope ("Error: " ++ error_message e))),
     calls').
Proof.
  apply (callTool_catches (invocation "createEmbedding" arguments)). reflexivity.
Qed.

(** The invocation handler makes the calls its handler makes, and no other. *)
Lemma callTool_chatCompletion_calls arguments calls :
  snd (callTool env OPENAI_API_KEY upstream (invocation "chatCompletion" arguments) calls)
  = snd (chatCompletion env OPENAI_API_KEY upstream
           (invocation "chatCompletion" arguments) calls).
Proof.
  destruct (chatCompletion env OPENAI_API_KEY upstream
              (invocation "chatCompletion" arguments) calls)
    as [[returned | e] calls'] eqn:Hrun.
  - rewrite (callTool_chatCompletion _ _ _ _ Hrun). reflexivity.
  - rewrite (callTool_chatCompletion_throws _ _ _ _ Hrun). reflexivity.
Qed.

Lemma callTool_createEmbedding_calls arguments calls :
  snd (callTool env OPENAI_API_KEY upstream (invocation "createEmbedding" arguments) calls)
  = snd (createEmbedding env OPENAI_API_KEY upstream
           (invocation "createEmbedding" arguments) calls).
Proof.
  destruct (createEmbedding env OPENAI_API_KEY upstream
              (invocation "createEmbedding" arguments) calls)
    as [[returned | e] calls'] eqn:Hrun.
  - rewrite (callTool_createEmbedding _ _ _ _ Hrun). reflexivity.
  - rewrite (callTool_createEmbedding_throws _ _ _ _ Hrun). reflexivity.
Qed.

End Registry.

(** *** The handlers *)

Section Handlers.

Context {E : Engine}.
Variable env : Environment.
Variable OPENAI_API_KEY : option string.
Variable upstream : HttpRequest -> FetchOutcome.

Ltac step := unfold bind, lift, try_catch, throw, ret, fetch, handler_error.

Ltac open_chatCompletion Hlog :=
  unfold chatCompletion, invocation, params_arguments;
  rewrite !destructure_object, !bind_lift_normal;
  rewrite (logged_model env _ _ Hlog), bind_lift_normal; step.

Ltac open_createEmbedding Hlog :=
  unfold createEmbedding, invocation, params_arguments;
  rewrite !destructure_object, !bind_lift_normal;
  rewrite (logged_model env _ _ Hlog), bind_lift_normal; step.

Ltac split_reads :=
  repeat match goal with
         | |- context [match ?c with Normal _ => _ | Throw _ => _ end] =>
             destruct c
         | |- context [match cbind ?c _ with Normal _ => _ | Throw _ => _ end] =>
             destruct c; cbn [cbind]
         end.

(** **** chatCompletion *)

(** Without arguments the destructuring throws, before the handler's [try]. *)
Lemma chatCompletion_without_arguments toolName arguments calls :
  is_nullish arguments = true ->
  chatCompletion env OPENAI_API_KEY upstream (invocation toolName arguments) calls
  = (Throw (Fault (DestructureOfNullish arguments "model" "request.params.arguments")),
     calls).
Proof.
  intros H. unfold chatCompletion, destructure. cbn [params_arguments invocation].
  rewrite H. reflexivity.
Qed.

(** With [DEBUG] on, a [model] without a string form makes the first [log]
    throw, before the handler's [try] as well. *)
Lemma chatCompletion_log_throws toolName arguments model e calls :
  get arguments "model" = Normal model ->
  logged env [Plain (JStr "Executing chatCompletion with model:"); Plain model] = Throw e ->
  chatCompletion env OPENAI_API_KEY upstream (invocation toolName arguments) calls
  = (Throw e, calls).
Proof.
  intros Hmodel Hlogged. unfold chatCompletion, invocation, params_arguments.
  rewrite !(destructure_get _ _ _ Hmodel), Hmodel.
  destruct (get_total _ _ _ "messages" Hmodel) as [messages ->].
  destruct (get_total _ _ _ "temperature" Hmodel) as [temperature ->].
  destruct (get_total _ _ _ "max_tokens" Hmodel) as [max_tokens ->].
  destruct (get_total _ _ _ "stream" Hmodel) as [stream ->].
  rewrite !bind_lift_normal, Hlogged. reflexivity.
Qed.

(** Validation of [messages] fails before any upstream call. *)
Lemma chatCompletion_rejects toolName arguments model messages calls :
  get arguments "model" = Normal model ->
  get arguments "messages" = Normal messages ->
  loggable env model ->
  messages_rejected messages = true ->
  chatCompletion env OPENAI_API_KEY upstream (invocation toolName arguments) calls
  = (Normal (ReturnedEnvelope
               (error_envelope "Error: Messages array is required and must not be empty")),
     calls).
Proof.
  intros Hmodel Hmessages Hlog H. unfold chatCompletion, invocation, params_arguments.
  rewrite !(destructure_get _ _ _ Hmodel), Hmodel, Hmessages.
  destruct (get_total _ _ _ "temperature" Hmodel) as [temperature ->].
  destruct (get_total _ _ _ "max_tokens" Hmodel) as [max_tokens ->].
  destruct (get_total _ _ _ "stream" Hmodel) as [stream ->].
  rewrite !bind_lift_normal, (logged_model env _ _ Hlog), bind_lift_normal. step.
  rewrite H. reflexivity.
Qed.

(** With valid [messages] the handler issues exactly one call, whatever the
    upstream answers, and returns. *)
Lemma chatCompletion_calls_once toolName fields calls :
  loggable env (own_or_undefined fields "model") ->
  messages_rejected (own_or_undefined fields "messages") = false ->
  exists returned,
    chatCompletion env OPENAI_API_KEY upstream (invocation toolName (JObj fields)) calls
    = (Normal returned, (calls ++ [chat_call_of OPENAI_API_KEY fields])%list).
Proof.
  intros Hlog H. open_chatCompletion Hlog. rewrite H.
  fold (chat_call_of OPENAI_API_KEY fields).
  destruct (upstream (chat_call_of OPENAI_API_KEY fields)) as [e | [[t | e] | [data | e]]];
    eauto.
  split_reads; eauto.
Qed.

(** A handler that has called the upstream had valid [messages] and a
    [model] that [log] could print. *)
Lemma chatCompletion_reaches toolName fields calls :
  snd (chatCompletion env OPENAI_API_KEY upstream (invocation toolName (JObj fields)) calls)
  <> calls ->
  loggable env (own_or_undefined fields "model")
  /\ messages_rejected (own_or_undefined fields "messages") = false.
Proof.
  intros Hreach.
  destruct (logged_model_cases env "Executing chatCompletion with model:"
              (own_or_undefined fields "model")) as [[Hlog _] | (e & _ & _ & Hlogged)].
  - split; [exact Hlog |].
    destruct (messages_rejected (own_or_undefined fields "messages")) eqn:Hrejected;
      [| reflexivity].
    rewrite (chatCompletion_rejects toolName (JObj fields) _ _ calls
               eq_refl eq_refl Hlog Hrejected) in Hreach.
    contradiction Hreach. reflexivity.
  - rewrite (chatCompletion_log_throws toolName (JObj fields) _ e calls eq_refl Hlogged)
      in Hreach.
    contradiction Hreach. reflexivity.
Qed.

Lemma chatCompletion_upstream_error toolName fields calls errorText :
  loggable env (own_or_undefined fields "model") ->
  messages_rejected (own_or_undefined fields "messages") = false ->
  upstream (chat_call_of OPENAI_API_KEY fields) = Responded (NotOk (Normal errorText)) ->
  chatCompletion env OPENAI_API_KEY upstream (invocation toolName (JObj fields)) calls
  = (Normal (ReturnedEnvelope (error_envelope ("Error: OpenAI API error: " ++ errorText))),
     (calls ++ [chat_call_of OPENAI_API_KEY fields])%list).
Proof.
  intros Hlog H Hup. open_chatCompletion Hlog. rewrite H.
  fold (chat_call_of OPENAI_API_KEY fields). rewrite Hup. reflexivity.
Qed.

Lemma chatCompletion_success toolName fields calls data choice message assistantMessage
    finish_reason :
  loggable env (own_or_undefined fields "model") ->
  messages_rejected (own_or_undefined fields "messages") = false ->
  upstream (chat_call_of OPENAI_API_KEY fields) = Responded (Ok (Normal (JObj data))) ->
  get_index (own_or_undefined data "choices") 0 = Normal choice ->
  get choice "message" = Normal message ->
  get message "content" = Normal assistantMessage ->
  get choice "finish_reason" = Normal finish_reason ->
  chatCompletion env OPENAI_API_KEY upstream (invocation toolName (JObj fields)) calls
  = (Normal (ReturnedEnvelope
               {| content := [text_item assistantMessage];
                  metadata := Some [("model", own_or_undefined data "model");
                                    ("usage", own_or_undefined data "usage");
                                    ("finish_reason", finish_reason)];
                  isError := None |}),
     (calls ++ [chat_call_of OPENAI_API_KEY fields])%list).
Proof.
  intros Hlog H Hup Hchoice Hmessage Hcontent Hreason. open_chatCompletion Hlog. rewrite H.
  fold (chat_call_of OPENAI_API_KEY fields). rewrite Hup.
  rewrite !get_of_object. cbn [cbind].
  rewrite Hchoice. cbn [cbind]. rewrite Hmessage. cbn [cbind].
  rewrite Hcontent, Hreason. reflexivity.
Qed.

(** **** createEmbedding *)

Lemma createEmbedding_without_arguments toolName arguments calls :
  is_nullish arguments = true ->
  createEmbedding env OPENAI_API_KEY upstream (invocation toolName arguments) calls
  = (Throw (Fault (DestructureOfNullish arguments "model" "request.params.arguments")),
     calls).
Proof.
  intros H. unfold createEmbedding, destructure. cbn [params_arguments invocation].
  rewrite H. reflexivity.
Qed.

Lemma createEmbedding_log_throws toolName arguments model e calls :
  get arguments "model" = Normal model ->
  logged env [Plain (JStr "Executing createEmbedding with model:"); Plain model] = Throw e ->
  createEmbedding env OPENAI_API_KEY upstream (invocation toolName arguments) calls
  = (Throw e, calls).
Proof.
  intros Hmodel Hlogged. unfold createEmbedding, invocation, params_arguments.
  rewrite !(destructure_get _ _ _ Hmodel), Hmodel.
  destruct (get_total _ _ _ "input" Hmodel) as [input ->].
  rewrite !bind_lift_normal, Hlogged. reflexivity.
Qed.

Lemma createEmbedding_rejects toolName arguments model input calls :
  get arguments "model" = Normal model ->
  get arguments "input" = Normal input ->
  loggable env model ->
  truthy input = false ->
  createEmbedding env OPENAI_API_KEY upstream (invocation toolName arguments) calls
  = (Normal (ReturnedEnvelope (error_envelope "Error: Input is required")), calls).
Proof.
  intros Hmodel Hinput Hlog H. unfold createEmbedding, invocation, params_arguments.
  rewrite !(destructure_get _ _ _ Hmodel), Hmodel, Hinput.
  rewrite !bind_lift_normal, (logged_model env _ _ Hlog), bind_lift_normal. step.
  rewrite H. reflexivity.
Qed.



Lemma createEmbedding_reaches toolName fields calls :
  snd (createEmbedding env OPENAI_API_KEY upstream (invocation toolName (JObj fields)) calls)
  <> calls ->
  loggable env (own_or_undefined fields "model")
  /\ truthy (own_or_undefined fields "input") = true.
Proof.
  intros Hreach.
  destruct (logged_model_cases env "Executing createEmbedding with model:"
              (own_or_undefined fields "model")) as [[Hlog _] | (e & _ & _ & Hlogged)].
  - split; [exact Hlog |].
    destruct (truthy (own_or_undefined fields "input")) eqn:Hinput; [reflexivity |].
    rewrite (createEmbedding_rejects toolName (JObj fields) _ _ calls
               eq_refl eq_refl Hlog Hinput) in Hreach.
    contradiction Hreach. reflexivity.
  - rewrite (createEmbedding_log_throws toolName (JObj fields) _ e calls eq_refl Hlogged)
      in Hreach.
    contradiction Hreach. reflexivity.
Qed.

Lemma createEmbedding_upstream_error toolName fields calls errorText :
  loggable env (own_or_undefined fields "model") ->
  truthy (own_or_undefined fields "input") = true ->
  upstream (embedding_call_of OPENAI_API_KEY fields) = Responded (NotOk (Normal errorText)) ->
  createEmbedding env OPENAI_API_KEY upstream (invocation toolName (JObj fields)) calls
  = (Normal (ReturnedEnvelope (error_envelope ("Error: OpenAI API error: " ++ errorText))),
     (calls ++ [embedding_call_of OPENAI_API_KEY fields])%list).
Proof.
  intros Hlog H Hup. open_createEmbedding Hlog. rewrite H.
  fold (embedding_call_of OPENAI_API_KEY fields). rewrite Hup. reflexivity.
Qed.

(** **** listModels *)

Lemma format_model_formats model line :
  formats_as model line -> format_model model = Normal line.
Proof.
  intros (fields & id & created & t & -> & Hid & Hcreated & Ht & ->).
  unfold format_model. rewrite !get_of_object, Hid, Hcreated. cbn.
  unfold Date_toISOString. rewrite Ht. reflexivity.
Qed.

Lemma cmap_format_model models lines :
  Forall2 formats_as models lines -> cmap format_model models = Normal lines.
Proof.
  induction 1 as [| model line models lines Hline _ IH]; cbn [cmap].
  - reflexivity.
  - rewrite (format_model_formats _ _ Hline). cbn [cbind]. rewrite IH. reflexivity.
Qed.

Lemma listModels_calls_once calls :
  exists returned,
    listModels OPENAI_API_KEY upstream calls
    = (Normal returned, (calls ++ [models_call OPENAI_API_KEY])%list).
Proof.
  unfold listModels. step.
  destruct (upstream (models_call OPENAI_API_KEY)) as [e | [[t | e] | [data | e]]]; eauto.
  split_reads; eauto.
Qed.

Lemma listModels_upstream_error calls error :
  upstream (models_call OPENAI_API_KEY) = Responded (NotOk (Normal error)) ->
  listModels OPENAI_API_KEY upstream calls
  = (Normal (ReturnedEnvelope
               (error_envelope ("Error listing models: OpenAI API error: " ++ error))),
     (calls ++ [models_call OPENAI_API_KEY])%list).
Proof.
  intros Hup. unfold listModels. step. rewrite Hup. reflexivity.
Qed.

Lemma listModels_success calls data models lines :
  upstream (models_call OPENAI_API_KEY) = Responded (Ok (Normal (JObj data))) ->
  own_or_undefined data "data" = JArr models ->
  Forall2 formats_as models lines ->
  listModels OPENAI_API_KEY upstream calls
  = (Normal (ReturnedEnvelope
               {| content :=
                    [text_item (JStr ("Available OpenAI Models:" ++ newline ++ newline
                                        ++ join newline lines))];
                  metadata := Some [("count", JNum (number_of_nat (List.length models)))];
                  isError := None |}),
     (calls ++ [models_call OPENAI_API_KEY])%list).
Proof.
  intros Hup Hdata Hlines. unfold listModels. step. rewrite Hup.
  rewrite !get_of_object, Hdata. unfold array_map.
  rewrite (cmap_format_model _ _ Hlines). reflexivity.
Qed.

End Handlers.

(** *** The shape of what is returned *)

Section Shape.

Context {E : Engine}.
Variable env : Environment.
Variable OPENAI_API_KEY : option string.
Variable upstream : HttpRequest -> FetchOutcome.

Ltac step := unfold bind, lift, try_catch, throw, ret, fetch, handler_error.

Ltac split_all :=
  repeat match goal with
         | |- context [match ?c with Normal _ => _ | Throw _ => _ end] =>
             destruct c
         | |- context [match cbind ?c _ with Normal _ => _ | Throw _ => _ end] =>
             destruct c; cbn [cbind]
         | |- context [if ?b then _ else _] => destruct b
         | |- context [match ?o with Rejected _ => _ | Responded _ => _ end] =>
             destruct o
         | |- context [match ?r with NotOk _ => _ | Ok _ => _ end] =>
             destruct r
         end.

Ltac conclude :=
  intros H; inversion H; subst; unfold full_envelope; eauto.

(** Whatever [listModels] returns is a full envelope. *)
Lemma listModels_returns_envelope calls returned calls' :
  listModels OPENAI_API_KEY upstream calls = (Normal returned, calls') ->
  full_envelope returned.
Proof.
  unfold listModels. step. split_all; conclude.
Qed.

(** Whatever [chatCompletion] returns is a full envelope. *)
Lemma chatCompletion_returns_envelope request calls returned calls' :
  chatCompletion env OPENAI_API_KEY upstream request calls = (Normal returned, calls') ->
  full_envelope returned.
Proof.
  unfold chatCompletion, destructure. step.
  destruct (is_nullish (params_arguments request)); [discriminate |].
  destruct (get (params_arguments request) "model"); [| discriminate].
  destruct (get (params_arguments request) "messages"); [| discriminate].
  destruct (get (params_arguments request) "temperature"); [| discriminate].
  destruct (get (params_arguments request) "max_tokens"); [| discriminate].
  destruct (get (params_arguments request) "stream"); [| discriminate].
  split_all; conclude.
Qed.

(** Whatever [createEmbedding] returns is a full envelope. *)
Lemma createEmbedding_returns_envelope request calls returned calls' :
  createEmbedding env OPENAI_API_KEY upstream request calls = (Normal returned, calls') ->
  full_envelope returned.
Proof.
  unfold createEmbedding, destructure. step.
  destruct (is_nullish (params_arguments request)); [discriminate |].
  destruct (get (params_arguments request) "model"); [| discriminate].
  destruct (get (params_arguments request) "input"); [| discriminate].
  split_all; conclude.
Qed.

(** A handler throws only before its [try]: where it destructures absent
    arguments, or where [log] cannot print [model]; no call has been made. *)
Lemma chatCompletion_throws request calls e calls' :
  chatCompletion env OPENAI_API_KEY upstream request calls = (Throw e, calls') ->
  calls' = calls
  /\ (is_nullish (params_arguments request) = true
      \/ exists model,
           get (params_arguments request) "model" = Normal model
           /\ DEBUG env = Some "true" /\ to_string model = Throw e).
Proof.
  destruct request as [toolName arguments]. cbn [params_arguments].
  change {| params_name := toolName; params_arguments := arguments |}
    with (invocation toolName arguments).
  destruct (is_nullish arguments) eqn:Hnullish.
  - rewrite (chatCompletion_without_arguments env _ _ _ _ _ Hnullish).
    intros [= <- <-]. auto.
  - destruct (get_of_present arguments "model" Hnullish) as [model Hmodel].
    destruct (logged_model_cases env "Executing chatCompletion with model:" model)
      as [[_ Hlogged] | (e0 & Hdebug & Htext & Hlogged)].
    + unfold chatCompletion, invocation, params_arguments.
      rewrite !(destructure_get _ _ _ Hmodel), Hmodel.
      destruct (get_total _ _ _ "messages" Hmodel) as [messages ->].
      destruct (get_total _ _ _ "temperature" Hmodel) as [temperature ->].
      destruct (get_total _ _ _ "max_tokens" Hmodel) as [max_tokens ->].
      destruct (get_total _ _ _ "stream" Hmodel) as [stream ->].
      rewrite !bind_lift_normal, Hlogged, bind_lift_normal. step.
      split_all; discriminate.
    + rewrite (chatCompletion_log_throws env _ _ _ _ _ e0 _ Hmodel Hlogged).
      intros [= <- <-]. split; [reflexivity |]. right. exists model. auto.
Qed.

Lemma createEmbedding_throws request calls e calls' :
  createEmbedding env OPENAI_API_KEY upstream request calls = (Throw e, calls') ->
  calls' = calls
  /\ (is_nullish (params_arguments request) = true
      \/ exists model,
           get (params_arguments request) "model" = Normal model
           /\ DEBUG env = Some "true" /\ to_string model = Throw e).
Proof.
  destruct request as [toolName arguments]. cbn [params_arguments].
  change {| params_name := toolName; params_arguments := arguments |}
    with (invocation toolName arguments).
  destruct (is_nullish arguments) eqn:Hnullish.
  - rewrite (createEmbedding_without_arguments env _ _ _ _ _ Hnullish).
    intros [= <- <-]. auto.
  - destruct (get_of_present arguments "model" Hnullish) as [model Hmodel].
    destruct (logged_model_cases env "Executing createEmbedding with model:" model)
      as [[_ Hlogged] | (e0 & Hdebug & Htext & Hlogged)].
    + unfold createEmbedding, invocation, params_arguments.
      rewrite !(destructure_get _ _ _ Hmodel), Hmodel.
      destruct (get_total _ _ _ "input" Hmodel) as [input ->].
      rewrite !bind_lift_normal, Hlogged, bind_lift_normal. step.
      split_all; discriminate.
    + rewrite (createEmbedding_log_throws env _ _ _ _ _ e0 _ Hmodel Hlogged).
      intros [= <- <-]. split; [reflexivity |]. right. exists model. auto.
Qed.

Lemma listModels_never_throws calls e calls' :
  listModels OPENAI_API_KEY upstream calls <> (Throw e, calls').
Proof.
  unfold listModels. step. split_all; discriminate.
Qed.

(** A tool name that is a method of [Object.prototype] reaches that method:
    [toString] answers with a bare string, not an envelope. *)
Lemma inherited_toString_is_called arguments calls :
  callTool env OPENAI_API_KEY upstream (invocation "toString" arguments) calls
  = (Normal (ReturnedString "[object Undefined]"), calls).
Proof. reflexivity. Qed.

(** The same for [constructor], which hands the request back. *)
Lemma inherited_constructor_is_called arguments calls :
  callTool env OPENAI_API_KEY upstream (invocation "constructor" arguments) calls
  = (Normal (ReturnedRequest (invocation "constructor" arguments)), calls).
Proof. reflexivity. Qed.

(** Every invocation of a name that is not a member of [Object.prototype]
    returns an envelope with one text item. *)
Lemma callTool_returns_envelope request calls :
  assoc Object_prototype (params_name request) = None ->
  exists envelope v calls',
    callTool env OPENAI_API_KEY upstream request calls
    = (Normal (ReturnedEnvelope envelope), calls')
    /\ content envelope = [text_item v].
Proof.
  intros Hname. unfold callTool, HANDLERS_get. rewrite Hname.
  unfold HANDLERS. cbn [assoc].
  repeat match goal with
         | |- context [String.eqb ?k (params_name request)] =>
             destruct (String.eqb k (params_name request))
         end;
    unfold try_catch;
    match goal with
    | |- context [let (_, _) := ?run in _] => destruct run as [[returned | e] calls'] eqn:Hrun
    end.
  all: try (unfold throw in Hrun; discriminate Hrun).
  all: try (do 3 eexists; split; reflexivity).
  - apply listModels_returns_envelope in Hrun.
    destruct Hrun as (v & properties & flag & ->). do 3 eexists. split; reflexivity.
  - apply chatCompletion_returns_envelope in Hrun.
    destruct Hrun as (v & properties & flag & ->). do 3 eexists. split; reflexivity.
  - apply createEmbedding_returns_envelope in Hrun.
    destruct Hrun as (v & properties & flag & ->). do 3 eexists. split; reflexivity.
Qed.

End Shape.

(** *** Values *)

(** The falsy values, one by one. *)
Lemma falsy_values v :
  truthy v = false <->
  v = JUndefined \/ v = JNull \/ v = JBool false \/ v = JStr ""
  \/ exists x, v = JNum x /\ (PrimFloat.is_nan x || PrimFloat.is_zero x) = true.
Proof.
  split.
  - destruct v as [| | [|] | x | s | |]; cbn [truthy]; intros H; try discriminate; auto.
    + right; right; right; right. exists x. split; [reflexivity |].
      apply negb_false_iff. exact H.
    + right; right; right; left. f_equal.
      apply String.eqb_eq. apply negb_false_iff. exact H.
  - intros [-> | [-> | [-> | [-> | (x & -> & H)]]]]; cbn [truthy]; try reflexivity.
    rewrite H. reflexivity.
Qed.

(** What [messages_rejected] lets through: the non-empty arrays. *)
Lemma messages_accepted messages :
  messages_rejected messages = false <-> exists first rest, messages = JArr (first :: rest).
Proof.
  split.
  - destruct messages as [| | | | | [| first rest] |]; intros H; eauto;
      unfold messages_rejected in H; cbn [isArray truthy negb] in H;
      rewrite ?orb_true_r in H; discriminate.
  - intros (first & rest & ->). reflexivity.
Qed.

(** *** The paths of an invocation *)

Section Paths.

Context {E : Engine}.
Variable env : Environment.
Variable OPENAI_API_KEY : option string.
Variable upstream : HttpRequest -> FetchOutcome.

(** A value that [log] cannot print makes it throw. *)
Lemma not_loggable_throws label model :
  ~ loggable env model ->
  exists e, logged env [Plain (JStr label); Plain model] = Throw e.
Proof.
  intros Hnot.
  destruct (logged_model_cases env label model) as [[Hlog _] | (e & _ & _ & Hlogged)];
    [contradiction | eauto].
Qed.

(** An invocation that fails before the handler's [try] is answered by the
    invocation handler: an envelope without [metadata], and no call. *)
Lemma callTool_chatCompletion_early arguments calls :
  is_nullish arguments = true
  \/ (exists model, get arguments "model" = Normal model /\ ~ loggable env model) ->
  exists e,
    callTool env OPENAI_API_KEY upstream (invocation "chatCompletion" arguments) calls
    = (Normal (ReturnedEnvelope (dispatch_error_envelope ("Error: " ++ error_message e))),
       calls).
Proof.
  intros [Hnullish | (model & Hmodel & Hnot)].
  - eexists. apply callTool_chatCompletion_throws.
    apply chatCompletion_without_arguments. exact Hnullish.
  - destruct (not_loggable_throws "Executing chatCompletion with model:" model Hnot)
      as [e Hlogged].
    exists e. apply callTool_chatCompletion_throws.
    apply (chatCompletion_log_throws env _ _ _ _ model e calls Hmodel Hlogged).
Qed.

Lemma callTool_createEmbedding_early arguments calls :
  is_nullish arguments = true
  \/ (exists model, get arguments "model" = Normal model /\ ~ loggable env model) ->
  exists e,
    callTool env OPENAI_API_KEY upstream (invocation "createEmbedding" arguments) calls
    = (Normal (ReturnedEnvelope (dispatch_error_envelope ("Error: " ++ error_message e))),
       calls).
Proof.
  intros [Hnullish | (model & Hmodel & Hnot)].
  - eexists. apply callTool_createEmbedding_throws.
    apply createEmbedding_without_arguments. exact Hnullish.
  - destruct (not_loggable_throws "Executing createEmbedding with model:" model Hnot)
      as [e Hlogged].
    exists e. apply callTool_createEmbedding_throws.
    apply (createEmbedding_log_throws env _ _ _ _ model e calls Hmodel Hlogged).
Qed.

(** An invocation that has called the upstream came past [log] and the
    validation. *)
Lemma callTool_chatCompletion_reaches fields calls :
  snd (callTool env OPENAI_API_KEY upstream (invocation "chatCompletion" (JObj fields)) calls)
  <> calls ->
  loggable env (own_or_undefined fields "model")
  /\ messages_rejected (own_or_undefined fields "messages") = false.
Proof.
  rewrite callTool_chatCompletion_calls. apply chatCompletion_reaches.
Qed.

Lemma callTool_createEmbedding_reaches fields calls :
  snd (callTool env OPENAI_API_KEY upstream (invocation "createEmbedding" (JObj fields)) calls)
  <> calls ->
  loggable env (own_or_undefined fields "model")
  /\ truthy (own_or_undefined fields "input") = true.
Proof.
  rewrite callTool_createEmbedding_calls. apply createEmbedding_reaches.
Qed.

(** With valid [messages], the one call is made when [log] can print
    [model], and no call otherwise. *)
Lemma callTool_chatCompletion_call fields calls :
  messages_rejected (own_or_undefined fields "messages") = false ->
  let calls' :=
    snd (callTool env OPENAI_API_KEY upstream (invocation "chatCompletion" (JObj fields))
           calls) in
  (calls' = (calls ++ [chat_call_of OPENAI_API_KEY fields])%list \/ calls' = calls)
  /\ (loggable env (own_or_undefined fields "model") ->
      calls' = (calls ++ [chat_call_of OPENAI_API_KEY fields])%list).
Proof.
  intros Hvalid calls'.
  assert (Hcalled : loggable env (own_or_undefined fields "model") ->
                    calls' = (calls ++ [chat_call_of OPENAI_API_KEY fields])%list).
  { intros Hlog. subst calls'.
    destruct (chatCompletion_calls_once env OPENAI_API_KEY upstream "chatCompletion"
                fields calls Hlog Hvalid) as [returned Hrun].
    rewrite (callTool_chatCompletion _ _ _ _ _ _ _ Hrun). reflexivity. }
  split; [| exact Hcalled].
  destruct (logged_model_cases env "Executing chatCompletion with model:"
              (own_or_undefined fields "model")) as [[Hlog _] | (e & _ & _ & Hlogged)].
  - left. exact (Hcalled Hlog).
  - right. subst calls'. rewrite callTool_chatCompletion_calls.
    rewrite (chatCompletion_log_throws env _ _ _ (JObj fields) _ e calls eq_refl Hlogged).
    reflexivity.
Qed.


End Paths.

(** ** The tool-invocation contract *)

(** C1.  The envelope invariant asks that every invocation return an envelope
    with a [metadata] property.  The invocation of a tool name that the
    registry does not know returns the envelope built by the invocation
    handler's own [catch], and that envelope has no [metadata], whereas the
    [catch] of each handler sets [metadata] to the empty object. *)
Theorem unknown_tool_envelope_has_no_metadata :
  forall (E : Engine) env key upstream calls,
  exists envelope,
    callTool env key upstream (invocation "nope" (JObj [])) calls
    = (Normal (ReturnedEnvelope envelope), calls)
    /\ content envelope = [text_item (JStr "Error: Unknown tool: nope")]
    /\ isError envelope = Some true
    /\ metadata envelope = None.
Proof.
  intros. eexists. split; [reflexivity | auto].
Qed.

(** C2 (as amended).  For every tool name that is neither one of the three
    registered handlers nor a member of [Object.prototype], the invocation
    returns, without any upstream call, an envelope whose content is the
    single text item ["Error: Unknown tool: <name>"] and whose [isError] is
    true; it does not throw. *)
Theorem unknown_tool_is_reported :
  forall (E : Engine) env key upstream toolName arguments calls,
    toolName <> "listModels" ->
    toolName <> "chatCompletion" ->
    toolName <> "createEmbedding" ->
    assoc Object_prototype toolName = None ->
    exists envelope,
      callTool env key upstream (invocation toolName arguments) calls
      = (Normal (ReturnedEnvelope envelope), calls)
      /\ content envelope = [text_item (JStr ("Error: Unknown tool: " ++ toolName))]
      /\ isError envelope = Some true.
Proof.
  intros E env key upstream toolName arguments calls H1 H2 H3 H.
  exists (dispatch_error_envelope ("Error: Unknown tool: " ++ toolName)).
  split; [| split; reflexivity].
  unfold callTool. cbn [invocation params_name].
  rewrite (HANDLERS_get_not_found env key upstream toolName H1 H2 H3 H).
  reflexivity.
Qed.



(** C5.  A [chatCompletion] invocation with non-empty [messages] makes no
    other upstream call than the one whose body has [model] ["gpt-3.5-turbo"]
    when the argument is omitted, [temperature] 0.7 when omitted,
    [max_tokens] 150 when omitted, and [stream] false whatever the arguments
    hold.  It makes that call whenever [log] can print [model], so whenever
    [DEBUG] is not ["true"], and whenever [model] is omitted. *)
Theorem chatCompletion_request_defaults :
  forall (E : Engine) env key upstream fields first rest calls,
    own_or_undefined fields "messages" = JArr (first :: rest) ->
    let request := chat_call_of key fields in
    let calls' :=
      snd (callTool env key upstream (invocation "chatCompletion" (JObj fields)) calls) in
    (calls' = (calls ++ [request])%list \/ calls' = calls)
    /\ (loggable env (own_or_undefined fields "model") ->
        calls' = (calls ++ [request])%list)
    /\ (own fields "model" = None ->
        calls' = (calls ++ [request])%list
        /\ body_field request "model" = Some (JStr "gpt-3.5-turbo"))
    /\ (own fields "temperature" = None ->
        body_field request "temperature" = Some (JNum default_temperature))
    /\ (own fields "max_tokens" = None ->
        body_field request "max_tokens" = Some (JNum 150%float))
    /\ body_field request "stream" = Some (JBool false).
Proof.
  intros E env key upstream fields first rest calls Hmessages request calls'.
  assert (Hvalid : messages_rejected (own_or_undefined fields "messages") = false)
    by (rewrite Hmessages; reflexivity).
  destruct (callTool_chatCompletion_call env key upstream fields calls Hvalid)
    as [Hcases Hcalled].
  split; [exact Hcases |]. split; [exact Hcalled |]. split; [| repeat split].
  - intros H. split.
    + apply Hcalled. apply falsy_is_loggable.
      rewrite (own_or_undefined_absent _ _ H). reflexivity.
    + subst request. unfold chat_call_of, body_field, chat_call, chat_openaiRequest.
      cbn [body own]. rewrite (own_or_undefined_absent _ _ H). reflexivity.
  - intros H. subst request. unfold chat_call_of, body_field, chat_call, chat_openaiRequest.
    cbn [body]. rewrite (own_or_undefined_absent _ "temperature" H). reflexivity.
  - intros H. subst request. unfold chat_call_of, body_field, chat_call, chat_openaiRequest.
    cbn [body]. rewrite (own_or_undefined_absent _ "max_tokens" H). reflexivity.
Qed.

(** C6.  When a [chatCompletion] invocation has called the upstream, and the
    upstream has answered with success and a body in which
    [choices[0].message.content] can be read, the envelope holds one text
    item, that content, and its metadata is exactly [model], [usage] and
    [finish_reason], the first two read from the body and the last from
    [choices[0]]. *)
Theorem chatCompletion_projects_upstream_body :
  forall (E : Engine) env key upstream fields data choice message assistantMessage calls,
    let run := callTool env key upstream (invocation "chatCompletion" (JObj fields)) calls in
    snd run <> calls ->
    upstream (chat_call_of key fields) = Responded (Ok (Normal (JObj data))) ->
    get_index (own_or_undefined data "choices") 0 = Normal choice ->
    get choice "message" = Normal message ->
    get message "content" = Normal assistantMessage ->
    exists finish_reason,
      get choice "finish_reason" = Normal finish_reason
      /\ run
         = (Normal (ReturnedEnvelope
                      {| content := [text_item assistantMessage];
                         metadata := Some [("model", own_or_undefined data "model");
                                           ("usage", own_or_undefined data "usage");
                                           ("finish_reason", finish_reason)];
                         isError := None |}),
            (calls ++ [chat_call_of key fields])%list).
Proof.
  intros E env key upstream fields data choice message assistantMessage calls run
         Hreach Hup Hchoice Hmessage Hcontent. subst run.
  apply callTool_chatCompletion_reaches in Hreach. destruct Hreach as [Hlog Hvalid].
  destruct (get_total _ _ _ "finish_reason" Hmessage) as [finish_reason Hreason].
  exists finish_reason. split; [exact Hreason |].
  apply callTool_chatCompletion.
  apply (chatCompletion_success env key upstream _ _ _ _ choice message); auto.
Qed.

(** C7.  When the upstream answers [listModels] with success and a list of
    models, each with a string [id] and a number [created] that gives a valid
    date, the envelope holds one text item: the heading followed by the lines
    ["- <id> (created: <ISO timestamp of created * 1000>)"] joined with
    newlines; [metadata.count] is the number of models. *)
Theorem listModels_formats_models :
  forall (E : Engine) env key upstream data models lines arguments calls,
    upstream (models_call key) = Responded (Ok (Normal (JObj data))) ->
    own_or_undefined data "data" = JArr models ->
    Forall2 formats_as models lines ->
    callTool env key upstream (invocation "listModels" arguments) calls
    = (Normal (ReturnedEnvelope
                 {| content :=
                      [text_item (JStr ("Available OpenAI Models:" ++ newline ++ newline
                                          ++ join newline lines))];
                    metadata := Some [("count", JNum (number_of_nat (List.length models)))];
                    isError := None |}),
       (calls ++ [models_call key])%list).
Proof.
  intros E env key upstream data models lines arguments calls Hup Hdata Hlines.
  apply callTool_listModels.
  apply (listModels_success key upstream calls data models lines Hup Hdata Hlines).
Qed.

(** C8.  When a handler has called the upstream, and the upstream has
    answered with a non-success status and body [B], the handler itself
    returns an error envelope whose text is ["Error: OpenAI API error: B"]
    for [chatCompletion] and [createEmbedding] and
    ["Error listing models: OpenAI API error: B"] for [listModels]: the
    handler completes normally, its own [catch] having built the envelope. *)
Theorem upstream_failure_is_reported :
  forall (E : Engine) env key upstream B calls,
    (upstream (models_call key) = Responded (NotOk (Normal B)) ->
     listModels key upstream calls
     = (Normal (ReturnedEnvelope
                  (error_envelope ("Error listing models: " ++ "OpenAI API error: " ++ B))),
        (calls ++ [models_call key])%list))
    /\ (forall fields,
          let run :=
            chatCompletion env key upstream (invocation "chatCompletion" (JObj fields))
              calls in
          snd run <> calls ->
          upstream (chat_call_of key fields) = Responded (NotOk (Normal B)) ->
          run = (Normal (ReturnedEnvelope
                           (error_envelope ("Error: " ++ "OpenAI API error: " ++ B))),
                 (calls ++ [chat_call_of key fields])%list))
    /\ (forall fields,
          let run :=
            createEmbedding env key upstream (invocation "createEmbedding" (JObj fields))
              calls in
          snd run <> calls ->
          upstream (embedding_call_of key fields) = Responded (NotOk (Normal B)) ->
          run = (Normal (ReturnedEnvelope
                           (error_envelope ("Error: " ++ "OpenAI API error: " ++ B))),
                 (calls ++ [embedding_call_of key fields])%list)).
Proof.
  intros E env key upstream B calls. repeat split.
  - apply listModels_upstream_error.
  - intros fields run Hreach Hup. subst run.
    apply chatCompletion_reaches in Hreach. destruct Hreach as [Hlog Hvalid].
    apply chatCompletion_upstream_error; assumption.
  - intros fields run Hreach Hup. subst run.
    apply createEmbedding_reaches in Hreach. destruct Hreach as [Hlog Hvalid].
    apply createEmbedding_upstream_error; assumption.
Qed.

(** C9.  [listTools] is pure: from any state it returns the same three
    descriptors, [listModels], [chatCompletion], [createEmbedding] in that
    order, and makes no upstream call; called twice in a row it gives the
    same result twice. *)
Theorem listTools_is_pure :
  forall calls calls',
    listTools calls
    = (Normal [LIST_MODELS_TOOL; CHAT_COMPLETION_TOOL; CREATE_EMBEDDING_TOOL], calls)
    /\ fst (listTools calls) = fst (listTools calls')
    /\ (first <- listTools ;; second <- listTools ;; ret (first, second)) calls
       = (Normal ([LIST_MODELS_TOOL; CHAT_COMPLETION_TOOL; CREATE_EMBEDDING_TOOL],
                  [LIST_MODELS_TOOL; CHAT_COMPLETION_TOOL; CREATE_EMBEDDING_TOOL]),
          calls)
    /\ map name [LIST_MODELS_TOOL; CHAT_COMPLETION_TOOL; CREATE_EMBEDDING_TOOL]
       = ["listModels"; "chatCompletion"; "createEmbedding"].
Proof.
  intros calls calls'. repeat split.
Qed.

(** C10.  [chatCompletion] substitutes the default model for any falsy
    [model], the empty string included, but keeps a [temperature] and a
    [max_tokens] of 0: the upstream request carries them as 0.  That request
    is the only call an invocation with non-empty [messages] can make; it is
    made whenever [log] can print [model], and a falsy [model] it can always
    print. *)
Theorem chatCompletion_falsy_arguments :
  forall (E : Engine) env key upstream fields first rest calls,
    own_or_undefined fields "messages" = JArr (first :: rest) ->
    let request := chat_call_of key fields in
    let calls' :=
      snd (callTool env key upstream (invocation "chatCompletion" (JObj fields)) calls) in
    (calls' = (calls ++ [request])%list \/ calls' = calls)
    /\ (loggable env (own_or_undefined fields "model") ->
        calls' = (calls ++ [request])%list)
    /\ (truthy (own_or_undefined fields "model") = false ->
        calls' = (calls ++ [request])%list
        /\ body_field request "model" = Some (JStr "gpt-3.5-turbo"))
    /\ (own fields "temperature" = Some (JNum 0%float) ->
        body_field request "temperature" = Some (JNum 0%float))
    /\ (own fields "max_tokens" = Some (JNum 0%float) ->
        body_field request "max_tokens" = Some (JNum 0%float)).
Proof.
  intros E env key upstream fields first rest calls Hmessages request calls'.
  assert (Hvalid : messages_rejected (own_or_undefined fields "messages") = false)
    by (rewrite Hmessages; reflexivity).
  destruct (callTool_chatCompletion_call env key upstream fields calls Hvalid)
    as [Hcases Hcalled].
  split; [exact Hcases |]. split; [exact Hcalled |]. split; [| split].
  - intros H. split.
    + apply Hcalled. apply falsy_is_loggable. exact H.
    + subst request. unfold chat_call_of, body_field, chat_call, chat_openaiRequest.
      cbn [body own]. unfold or_else. rewrite H. reflexivity.
  - intros H. subst request. unfold chat_call_of, body_field, chat_call, chat_openaiRequest.
    assert (Hzero : own_or_undefined fields "temperature" = JNum 0%float)
      by (unfold own_or_undefined; rewrite H; reflexivity).
    cbn [body]. rewrite Hzero. reflexivity.
  - intros H. subst request. unfold chat_call_of, body_field, chat_call, chat_openaiRequest.
    assert (Hzero : own_or_undefined fields "max_tokens" = JNum 0%float)
      by (unfold own_or_undefined; rewrite H; reflexivity).
    cbn [body]. rewrite Hzero. reflexivity.
Qed.

(** ** The contract on stub upstreams *)

(** An unregistered name is reported with the prefix that every error text
    of the server has: the text of the envelope is not the bare
    ["Unknown tool: nope"]. *)
Lemma unknown_tool_text_is_prefixed :
  returns_envelope_with
    (callTool (E := Node) quiet None no_upstream (invocation "nope" (JObj [])) [])
    (fun envelope => content envelope <> [text_item (JStr "Unknown tool: nope")]).
Proof.
  vm_compute. discriminate.
Qed.

(** The report of the unregistered name [nope]. *)
Lemma unknown_tool_is_reported_witness :
  exists envelope,
    callTool (E := Node) quiet None no_upstream (invocation "nope" (JObj [])) []
    = (Normal (ReturnedEnvelope envelope), [])
    /\ content envelope = [text_item (JStr "Error: Unknown tool: nope")]
    /\ isError envelope = Some true.
Proof.
  apply (unknown_tool_is_reported Node quiet None no_upstream "nope" (JObj []) []);
    [discriminate | discriminate | discriminate | reflexivity].
Defined.





(** The request for arguments that give only [messages] and ask for a
    stream, with [DEBUG] on. *)
Lemma chatCompletion_request_defaults_witness :
  let fields := (hello ++ [("stream", JBool true)])%list in
  let request := chat_call_of (Some "sk-test") fields in
  snd (callTool (E := Node) debugging (Some "sk-test") no_upstream
         (invocation "chatCompletion" (JObj fields)) [])
  = [request]
  /\ body_field request "model" = Some (JStr "gpt-3.5-turbo")
  /\ body_field request "temperature" = Some (JNum default_temperature)
  /\ body_field request "max_tokens" = Some (JNum 150%float)
  /\ body_field request "stream" = Some (JBool false).
Proof.
  intros fields request.
  destruct (chatCompletion_request_defaults Node debugging (Some "sk-test") no_upstream
              fields (JObj [("role", JStr "user"); ("content", JStr "Hello")]) [] []
              eq_refl)
    as (_ & _ & Hmodel & Htemperature & Hmax & Hstream).
  destruct (Hmodel eq_refl) as [Hcalls Hdefault].
  split; [exact Hcalls |].
  split; [exact Hdefault |].
  split; [apply Htemperature; reflexivity |].
  split; [apply Hmax; reflexivity | exact Hstream].
Defined.

(** The stub chat completion of the specification. *)
Lemma chatCompletion_projects_upstream_body_witness :
  callTool (E := Node) debugging None (stub_upstream (Ok (Normal (JObj one_choice))))
    (invocation "chatCompletion" (JObj hello)) []
  = (Normal (ReturnedEnvelope
               {| content := [text_item (JStr "hi")];
                  metadata :=
                    Some [("model", JStr "x");
                          ("usage",
                            JObj [("prompt_tokens", JNum 3%float);
                                  ("completion_tokens", JNum 1%float)]);
                          ("finish_reason", JStr "stop")];
                  isError := None |}),
     [chat_call_of None hello]).
Proof.
  destruct (chatCompletion_projects_upstream_body Node debugging None
              (stub_upstream (Ok (Normal (JObj one_choice)))) hello
              one_choice
              (JObj [("message", JObj [("content", JStr "hi")]);
                     ("finish_reason", JStr "stop")])
              (JObj [("content", JStr "hi")])
              (JStr "hi") [])
    as (finish_reason & Hreason & Hrun);
    [vm_compute; discriminate | reflexivity | reflexivity | reflexivity | reflexivity |].
  injection Hreason as <-. exact Hrun.
Defined.

(** The two-model stub of the specification. *)
Lemma listModels_formats_models_witness :
  callTool (E := Node) quiet None (stub_upstream (Ok (Normal two_models)))
    (invocation "listModels" (JObj [])) []
  = (Normal (ReturnedEnvelope
               {| content :=
                    [text_item
                       (JStr ("Available OpenAI Models:" ++ newline ++ newline
                                ++ "- m1 (created: 1970-01-01T00:00:00.000Z)" ++ newline
                                ++ "- m2 (created: 1970-01-01T00:01:40.000Z)"))];
                  metadata := Some [("count", JNum 2%float)];
                  isError := None |}),
     [models_call None]).
Proof.
  apply (listModels_formats_models Node quiet None (stub_upstream (Ok (Normal two_models)))
           [("data",
              JArr [JObj [("id", JStr "m1"); ("created", JNum 0%float)];
                    JObj [("id", JStr "m2"); ("created", JNum 100%float)]])]
           [JObj [("id", JStr "m1"); ("created", JNum 0%float)];
            JObj [("id", JStr "m2"); ("created", JNum 100%float)]]
           ["- m1 (created: 1970-01-01T00:00:00.000Z)";
            "- m2 (created: 1970-01-01T00:01:40.000Z)"]
           (JObj []) [] eq_refl eq_refl).
  apply Forall2_cons; [| apply Forall2_cons; [| apply Forall2_nil]].
  - exists [("id", JStr "m1"); ("created", JNum 0%float)], "m1", 0%float, 0.
    repeat split.
  - exists [("id", JStr "m2"); ("created", JNum 100%float)], "m2", 100%float, 100000.
    repeat split.
Defined.

(** The stub of the specification that answers HTTP 500 with the body
    [rate limited]. *)
Lemma upstream_failure_is_reported_witness :
  let upstream := stub_upstream (NotOk (Normal "rate limited")) in
  listModels (E := Node) None upstream []
  = (Normal (ReturnedEnvelope
               (error_envelope "Error listing models: OpenAI API error: rate limited")),
     [models_call None])
  /\ chatCompletion (E := Node) debugging None upstream
       (invocation "chatCompletion" (JObj hello)) []
     = (Normal (ReturnedEnvelope (error_envelope "Error: OpenAI API error: rate limited")),
        [chat_call_of None hello])
  /\ createEmbedding (E := Node) debugging None upstream
       (invocation "createEmbedding" (JObj [("input", JStr "text")])) []
     = (Normal (ReturnedEnvelope (error_envelope "Error: OpenAI API error: rate limited")),
        [embedding_call_of None [("input", JStr "text")]]).
Proof.
  intros upstream.
  destruct (upstream_failure_is_reported Node debugging None upstream "rate limited" [])
    as (Hmodels & Hchat & Hembedding).
  split; [apply Hmodels; reflexivity |].
  split.
  - apply (Hchat hello); [vm_compute; discriminate | reflexivity].
  - apply (Hembedding [("input", JStr "text")]); [vm_compute; discriminate | reflexivity].
Defined.

(** The request for an empty [model] and a [temperature] and [max_tokens]
    of 0, with [DEBUG] on. *)
Lemma chatCompletion_falsy_arguments_witness :
  let fields :=
    ([("model", JStr ""); ("temperature", JNum 0%float); ("max_tokens", JNum 0%float)]
       ++ hello)%list in
  let request := chat_call_of None fields in
  snd (callTool (E := Node) debugging None no_upstream
         (invocation "chatCompletion" (JObj fields)) [])
  = [request]
  /\ body_field request "model" = Some (JStr "gpt-3.5-turbo")
  /\ body_field request "temperature" = Some (JNum 0%float)
  /\ body_field request "max_tokens" = Some (JNum 0%float).
Proof.
  intros fields request.
  destruct (chatCompletion_falsy_arguments Node debugging None no_upstream fields
              (JObj [("role", JStr "user"); ("content", JStr "Hello")]) [] []
              eq_refl)
    as (_ & _ & Hmodel & Htemperature & Hmax).
  destruct (Hmodel eq_refl) as [Hcalls Hdefault].
  split; [exact Hcalls |].
  split; [exact Hdefault |].
  split; [apply Htemperature; reflexivity | apply Hmax; reflexivity].
Defined.

(** ** Further properties of the server *)

(** *** What an invocation does to the upstream *)

Section Traces.

Context {E : Engine}.
Variable env : Environment.
Variable OPENAI_API_KEY : option string.
Variable upstream : HttpRequest -> FetchOutcome.

Ltac step := unfold bind, lift, try_catch, throw, ret, fetch, handler_error.

Ltac split_closed :=
  repeat match goal with
         | |- context [match ?c with Normal _ => _ | Throw _ => _ end] =>
             destruct c eqn:?
         | |- context [match cbind ?c _ with Normal _ => _ | Throw _ => _ end] =>
             destruct c eqn:?; cbn [cbind]
         | |- context [if ?b then _ else _] => destruct b eqn:?
         | |- context [match ?o with Rejected _ => _ | Responded _ => _ end] =>
             destruct o eqn:?
         | |- context [match ?r with NotOk _ => _ | Ok _ => _ end] =>
             destruct r eqn:?
         end.

Ltac no_call :=
  eexists; exists []; split; [left; reflexivity |];
  intros calls; rewrite app_nil_r; reflexivity.

Ltac one_call :=
  eexists; eexists; (split; [right; eexists; reflexivity |]);
  intros calls; reflexivity.

(** [listModels] returns after exactly one call, the same from every state. *)
Lemma listModels_trace :
  exists returned,
    forall calls,
      listModels OPENAI_API_KEY upstream calls
      = (Normal returned, (calls ++ [models_call OPENAI_API_KEY])%list).
Proof.
  unfold listModels. step. split_closed; eexists; intros calls; reflexivity.
Qed.

(** [chatCompletion] completes after no call or after one, the same from
    every state. *)
Lemma chatCompletion_trace request :
  exists outcome delta,
    (delta = [] \/ exists openaiRequest, delta = [chat_call OPENAI_API_KEY openaiRequest])
    /\ forall calls,
         chatCompletion env OPENAI_API_KEY upstream request calls
         = (outcome, (calls ++ delta)%list).
Proof.
  unfold chatCompletion, destructure. step.
  destruct (is_nullish (params_arguments request)); [no_call |].
  destruct (get (params_arguments request) "model") as [model | e]; [| no_call].
  destruct (get (params_arguments request) "messages") as [messages | e]; [| no_call].
  destruct (get (params_arguments request) "temperature") as [temperature | e];
    [| no_call].
  destruct (get (params_arguments request) "max_tokens") as [max_tokens | e];
    [| no_call].
  destruct (get (params_arguments request) "stream") as [stream | e]; [| no_call].
  destruct (logged env _) as [[] | e]; [| no_call].
  destruct (messages_rejected messages); [no_call |].
  split_closed; one_call.
Qed.

(** The same for [createEmbedding]. *)
Lemma createEmbedding_trace request :
  exists outcome delta,
    (delta = []
     \/ exists openaiRequest, delta = [embedding_call OPENAI_API_KEY openaiRequest])
    /\ forall calls,
         createEmbedding env OPENAI_API_KEY upstream request calls
         = (outcome, (calls ++ delta)%list).
Proof.
  unfold createEmbedding, destructure. step.
  destruct (is_nullish (params_arguments request)); [no_call |].
  destruct (get (params_arguments request) "model") as [model | e]; [| no_call].
  destruct (get (params_arguments request) "input") as [input | e]; [| no_call].
  destruct (logged env _) as [[] | e]; [| no_call].
  destruct (truthy input); cbn [negb]; [| no_call].
  split_closed; one_call.
Qed.

(** What an invocation returns and the calls it adds do not depend on the
    calls made before. *)
Lemma callTool_trace request :
  exists returned delta,
    issued OPENAI_API_KEY delta
    /\ forall calls,
         callTool env OPENAI_API_KEY upstream request calls
         = (Normal returned, (calls ++ delta)%list).
Proof.
  unfold callTool, HANDLERS_get, HANDLERS. cbn [assoc].
  destruct (String.eqb "listModels" (params_name request)).
  { destruct listModels_trace as [returned Hrun].
    exists returned, [models_call OPENAI_API_KEY].
    split; [right; left; reflexivity |].
    intros calls. unfold try_catch. rewrite Hrun. reflexivity. }
  destruct (String.eqb "chatCompletion" (params_name request)).
  { destruct (chatCompletion_trace request) as (outcome & delta & Hdelta & Hrun).
    assert (Hissued : issued OPENAI_API_KEY delta)
      by (destruct Hdelta as [-> | Hone];
          [left; reflexivity | right; right; left; exact Hone]).
    destruct outcome as [returned | e]; eexists; exists delta;
      (split; [exact Hissued |]); intros calls; unfold try_catch, ret;
      rewrite Hrun; reflexivity. }
  destruct (String.eqb "createEmbedding" (params_name request)).
  { destruct (createEmbedding_trace request) as (outcome & delta & Hdelta & Hrun).
    assert (Hissued : issued OPENAI_API_KEY delta)
      by (destruct Hdelta as [-> | Hone];
          [left; reflexivity | right; right; right; exact Hone]).
    destruct outcome as [returned | e]; eexists; exists delta;
      (split; [exact Hissued |]); intros calls; unfold try_catch, ret;
      rewrite Hrun; reflexivity. }
  destruct (assoc Object_prototype (params_name request)) as [member |].
  - destruct (call_inherited member request);
      eexists; exists []; (split; [left; reflexivity |]);
      intros calls; rewrite app_nil_r; reflexivity.
  - eexists. exists []. split; [left; reflexivity |].
    intros calls. rewrite app_nil_r. reflexivity.
Qed.

End Traces.

(** *** Errors and successes *)

Section Outcomes.

Context {E : Engine}.
Variable env : Environment.
Variable OPENAI_API_KEY : option string.
Variable upstream : HttpRequest -> FetchOutcome.

Ltac step := unfold bind, lift, try_catch, throw, ret, fetch, handler_error.

Ltac split_closed :=
  repeat match goal with
         | |- context [match ?c with Normal _ => _ | Throw _ => _ end] =>
             destruct c eqn:?
         | |- context [match cbind ?c _ with Normal _ => _ | Throw _ => _ end] =>
             destruct c eqn:?; cbn [cbind]
         | |- context [if ?b then _ else _] => destruct b eqn:?
         | |- context [match ?o with Rejected _ => _ | Responded _ => _ end] =>
             destruct o eqn:?
         | |- context [match ?r with NotOk _ => _ | Ok _ => _ end] =>
             destruct r eqn:?
         end.

Ltac classify :=
  let H := fresh "H" in
  intros H; inversion H; subst; clear H; eexists; split; [reflexivity |];
  first [ left; split; [reflexivity | eexists; reflexivity]
        | right; split; [reflexivity | split; [discriminate | eauto]] ].

(** What [listModels] returns is an error envelope or a success envelope. *)
Lemma listModels_outcome calls returned calls' :
  listModels OPENAI_API_KEY upstream calls = (Normal returned, calls') ->
  exists envelope,
    returned = ReturnedEnvelope envelope
    /\ (reports_error envelope \/ reports_success upstream calls calls' envelope).
Proof.
  unfold listModels, reports_error, reports_success. step.
  split_closed; classify.
Qed.

(** The same for [chatCompletion]. *)
Lemma chatCompletion_outcome request calls returned calls' :
  chatCompletion env OPENAI_API_KEY upstream request calls = (Normal returned, calls') ->
  exists envelope,
    returned = ReturnedEnvelope envelope
    /\ (reports_error envelope \/ reports_success upstream calls calls' envelope).
Proof.
  unfold chatCompletion, destructure, reports_error, reports_success. step.
  destruct (is_nullish (params_arguments request)); [discriminate |].
  destruct (get (params_arguments request) "model"); [| discriminate].
  destruct (get (params_arguments request) "messages"); [| discriminate].
  destruct (get (params_arguments request) "temperature"); [| discriminate].
  destruct (get (params_arguments request) "max_tokens"); [| discriminate].
  destruct (get (params_arguments request) "stream"); [| discriminate].
  destruct (logged env _) as [[] | e]; [| discriminate].
  split_closed; classify.
Qed.

(** The same for [createEmbedding]. *)
Lemma createEmbedding_outcome request calls returned calls' :
  createEmbedding env OPENAI_API_KEY upstream request calls = (Normal returned, calls') ->
  exists envelope,
    returned = ReturnedEnvelope envelope
    /\ (reports_error envelope \/ reports_success upstream calls calls' envelope).
Proof.
  unfold createEmbedding, destructure, reports_error, reports_success. step.
  destruct (is_nullish (params_arguments request)); [discriminate |].
  destruct (get (params_arguments request) "model"); [| discriminate].
  destruct (get (params_arguments request) "input"); [| discriminate].
  destruct (logged env _) as [[] | e]; [| discriminate].
  split_closed; classify.
Qed.

(** Every invocation of a name outside [Object.prototype] returns an error
    envelope or a success envelope. *)
Lemma callTool_outcome request calls :
  assoc Object_prototype (params_name request) = None ->
  exists envelope calls',
    callTool env OPENAI_API_KEY upstream request calls
    = (Normal (ReturnedEnvelope envelope), calls')
    /\ (reports_error envelope \/ reports_success upstream calls calls' envelope).
Proof.
  intros Hname. unfold callTool, HANDLERS_get. rewrite Hname.
  unfold HANDLERS. cbn [assoc].
  assert (Hcaught : forall message calls0,
             reports_error (dispatch_error_envelope ("Error: " ++ message))
             \/ reports_success upstream calls calls0
                  (dispatch_error_envelope ("Error: " ++ message))).
  { intros message calls0. left. split; [reflexivity |]. eexists. reflexivity. }
  repeat match goal with
         | |- context [String.eqb ?k (params_name request)] =>
             destruct (String.eqb k (params_name request))
         end;
    unfold try_catch;
    match goal with
    | |- context [let (_, _) := ?run in _] =>
        destruct run as [[returned | e] calls'] eqn:Hrun
    end.
  - destruct (listModels_outcome _ _ _ Hrun) as (envelope & -> & H). eauto.
  - do 2 eexists. split; [reflexivity | apply Hcaught].
  - destruct (chatCompletion_outcome _ _ _ _ Hrun) as (envelope & -> & H). eauto.
  - do 2 eexists. split; [reflexivity | apply Hcaught].
  - destruct (createEmbedding_outcome _ _ _ _ Hrun) as (envelope & -> & H). eauto.
  - do 2 eexists. split; [reflexivity | apply Hcaught].
  - unfold throw in Hrun. discriminate Hrun.
  - do 2 eexists. split; [reflexivity | apply Hcaught].
Qed.

End Outcomes.

(** *** The invocation as a whole *)


(** X2.  For a tool name outside [Object.prototype], the envelope returned
    never has [isError] false: the property is true or absent.  When it is
    absent the envelope has [metadata], and exactly one upstream call was
    made, which the upstream answered with success and a body that parses. *)
Theorem success_needs_an_upstream_answer :
  forall (E : Engine) env key upstream request calls,
    assoc Object_prototype (params_name request) = None ->
    exists envelope calls',
      callTool env key upstream request calls = (Normal (ReturnedEnvelope envelope), calls')
      /\ (isError envelope = Some true \/ isError envelope = None)
      /\ (isError envelope = None ->
          metadata envelope <> None
          /\ exists call data,
               calls' = (calls ++ [call])%list
               /\ upstream call = Responded (Ok (Normal data))).
Proof.
  intros E env key upstream request calls Hname.
  destruct (callTool_outcome env key upstream request calls Hname)
    as (envelope & calls' & Hrun & [[Herror _] | (Hflag & Hmetadata & Hcall)]);
    exists envelope, calls'; (split; [exact Hrun |]).
  - split; [left; exact Herror |]. rewrite Herror. discriminate.
  - split; [right; exact Hflag |]. intros _. split; assumption.
Qed.

(** X3.  For a tool name outside [Object.prototype], an envelope with
    [isError] true holds one text item whose text starts with [Error]. *)
Theorem error_text_starts_with_Error :
  forall (E : Engine) env key upstream request calls,
    assoc Object_prototype (params_name request) = None ->
    exists envelope calls',
      callTool env key upstream request calls = (Normal (ReturnedEnvelope envelope), calls')
      /\ (isError envelope = Some true ->
          exists rest, content envelope = [text_item (JStr ("Error" ++ rest))]).
Proof.
  intros E env key upstream request calls Hname.
  destruct (callTool_outcome env key upstream request calls Hname)
    as (envelope & calls' & Hrun & [[_ Htext] | (Hflag & _)]);
    exists envelope, calls'; (split; [exact Hrun |]).
  - intros _. exact Htext.
  - rewrite Hflag. discriminate.
Qed.

(** X4.  An invocation of [chatCompletion] or [createEmbedding] without an
    arguments object ([undefined] or [null]) fails in the destructuring that
    precedes the handler's [try]: the invocation handler reports the
    engine's message for it, in an envelope without [metadata], and no
    upstream call is made.  [listModels] does not look at the arguments. *)
Theorem absent_arguments_reach_the_dispatcher :
  forall (E : Engine) env key upstream toolName arguments calls,
    toolName = "chatCompletion" \/ toolName = "createEmbedding" ->
    is_nullish arguments = true ->
    callTool env key upstream (invocation toolName arguments) calls
    = (Normal (ReturnedEnvelope
                 (dispatch_error_envelope
                    ("Error: " ++ fault_message
                                    (DestructureOfNullish arguments "model"
                                       "request.params.arguments")))),
       calls)
    /\ callTool env key upstream (invocation "listModels" arguments) calls
       = callTool env key upstream (invocation "listModels" (JObj [])) calls.
Proof.
  intros E env key upstream toolName arguments calls Hname Hnullish.
  split; [| reflexivity].
  destruct Hname as [-> | ->];
    unfold callTool; cbn [invocation params_name];
    [rewrite HANDLERS_get_chatCompletion | rewrite HANDLERS_get_createEmbedding];
    [unfold chatCompletion | unfold createEmbedding];
    unfold destructure; cbn [params_arguments invocation]; rewrite Hnullish; reflexivity.
Qed.

(** X5.  A tool name that is a member of [Object.prototype] is found by the
    lookup in [HANDLERS] and called: it is never reported as an unknown tool
    and never reaches the upstream.  [toString] returns a bare string and
    [constructor] the request itself; [__proto__] is not callable and the
    other members fail for want of a receiver, which the invocation handler
    reports. *)
Theorem inherited_names_are_called :
  forall (E : Engine) env key upstream toolName member arguments calls,
    assoc Object_prototype toolName = Some member ->
    callTool env key upstream (invocation toolName arguments) calls
    = (Normal
         match member with
         | op_toString => ReturnedString "[object Undefined]"
         | op_constructor => ReturnedRequest (invocation toolName arguments)
         | op_proto =>
             ReturnedEnvelope
               (dispatch_error_envelope
                  ("Error: " ++ fault_message (NotAFunction "handler")))
         | _ =>
             ReturnedEnvelope
               (dispatch_error_envelope ("Error: " ++ fault_message (BadReceiver member)))
         end,
       calls).
Proof.
  intros E env key upstream toolName member arguments calls Hmember.
  unfold Object_prototype in Hmember. cbn [assoc] in Hmember.
  repeat match type of Hmember with
         | context [String.eqb ?k toolName] =>
             destruct (String.eqb_spec k toolName) as [<- | _];
             [injection Hmember as <-; reflexivity |]
         end.
  discriminate Hmember.
Qed.

(** *** Failures of the upstream *)

Section Failures.

Context {E : Engine}.
Variable env : Environment.
Variable OPENAI_API_KEY : option string.
Variable upstream : HttpRequest -> FetchOutcome.

Ltac step := unfold bind, lift, try_catch, throw, ret, fetch, handler_error.

Lemma listModels_rejection calls e :
  rejects_with upstream (models_call OPENAI_API_KEY) e ->
  listModels OPENAI_API_KEY upstream calls
  = (Normal (ReturnedEnvelope (error_envelope ("Error listing models: " ++ error_message e))),
     (calls ++ [models_call OPENAI_API_KEY])%list).
Proof.
  intros [H | [H | H]]; unfold listModels; step; rewrite H; reflexivity.
Qed.

Lemma chatCompletion_rejection toolName fields calls e :
  loggable env (own_or_undefined fields "model") ->
  messages_rejected (own_or_undefined fields "messages") = false ->
  rejects_with upstream (chat_call_of OPENAI_API_KEY fields) e ->
  chatCompletion env OPENAI_API_KEY upstream (invocation toolName (JObj fields)) calls
  = (Normal (ReturnedEnvelope (error_envelope ("Error: " ++ error_message e))),
     (calls ++ [chat_call_of OPENAI_API_KEY fields])%list).
Proof.
  intros Hlog Hvalid H.
  unfold chatCompletion, invocation, params_arguments.
  rewrite !destructure_object, !bind_lift_normal.
  rewrite (logged_model env _ _ Hlog), bind_lift_normal. step. rewrite Hvalid.
  fold (chat_call_of OPENAI_API_KEY fields).
  destruct H as [H | [H | H]]; rewrite H; reflexivity.
Qed.

Lemma createEmbedding_rejection toolName fields calls e :
  loggable env (own_or_undefined fields "model") ->
  truthy (own_or_undefined fields "input") = true ->
  rejects_with upstream (embedding_call_of OPENAI_API_KEY fields) e ->
  createEmbedding env OPENAI_API_KEY upstream (invocation toolName (JObj fields)) calls
  = (Normal (ReturnedEnvelope (error_envelope ("Error: " ++ error_message e))),
     (calls ++ [embedding_call_of OPENAI_API_KEY fields])%list).
Proof.
  intros Hlog Hvalid H.
  unfold createEmbedding, invocation, params_arguments.
  rewrite !destructure_object, !bind_lift_normal.
  rewrite (logged_model env _ _ Hlog), bind_lift_normal. step. rewrite Hvalid. cbn [negb].
  fold (embedding_call_of OPENAI_API_KEY fields).
  destruct H as [H | [H | H]]; rewrite H; reflexivity.
Qed.

(** A successful answer to [chatCompletion] whose body is an object: the
    handler goes on to read [choices[0].message.content]. *)
Lemma chatCompletion_reads toolName fields calls data :
  loggable env (own_or_undefined fields "model") ->
  messages_rejected (own_or_undefined fields "messages") = false ->
  upstream (chat_call_of OPENAI_API_KEY fields) = Responded (Ok (Normal (JObj data))) ->
  forall e,
    (let! choice := get_index (own_or_undefined data "choices") 0 in
     let! message := get choice "message" in
     get message "content") = Throw e ->
    chatCompletion env OPENAI_API_KEY upstream (invocation toolName (JObj fields)) calls
    = (Normal (ReturnedEnvelope (error_envelope ("Error: " ++ error_message e))),
       (calls ++ [chat_call_of OPENAI_API_KEY fields])%list).
Proof.
  intros Hlog Hvalid Hup e Hread.
  unfold chatCompletion, invocation, params_arguments.
  rewrite !destructure_object, !bind_lift_normal.
  rewrite (logged_model env _ _ Hlog), bind_lift_normal. step. rewrite Hvalid.
  fold (chat_call_of OPENAI_API_KEY fields). rewrite Hup.
  rewrite !get_of_object. cbn [cbind]. rewrite Hread. reflexivity.
Qed.

(** A successful answer to [createEmbedding] from whose body the length of
    the first embedding can be read. *)
Lemma createEmbedding_success toolName fields calls data row vector :
  loggable env (own_or_undefined fields "model") ->
  truthy (own_or_undefined fields "input") = true ->
  upstream (embedding_call_of OPENAI_API_KEY fields) = Responded (Ok (Normal (JObj data))) ->
  get_index (own_or_undefined data "data") 0 = Normal row ->
  get row "embedding" = Normal (JArr vector) ->
  createEmbedding env OPENAI_API_KEY upstream (invocation toolName (JObj fields)) calls
  = (Normal (ReturnedEnvelope
               {| content :=
                    [text_item
                       (JStr ("Embedding generated successfully. Vector dimension: "
                                ++ number_to_string (number_of_nat (List.length vector))))];
                  metadata := Some [("model", own_or_undefined data "model");
                                    ("usage", own_or_undefined data "usage")];
                  isError := None |}),
     (calls ++ [embedding_call_of OPENAI_API_KEY fields])%list).
Proof.
  intros Hlog Hvalid Hup Hrow Hembedding.
  unfold createEmbedding, invocation, params_arguments.
  rewrite !destructure_object, !bind_lift_normal.
  rewrite (logged_model env _ _ Hlog), bind_lift_normal. step. rewrite Hvalid. cbn [negb].
  fold (embedding_call_of OPENAI_API_KEY fields). rewrite Hup.
  rewrite !get_of_object. cbn [cbind]. rewrite Hrow. cbn [cbind].
  rewrite Hembedding. reflexivity.
Qed.

(** One entry that cannot be formatted ends [Array.prototype.map]. *)
Lemma cmap_stops {A B} (f : A -> Completion B) good lines bad rest e :
  cmap f good = Normal lines ->
  f bad = Throw e ->
  cmap f (good ++ bad :: rest)%list = Throw e.
Proof.
  revert lines. induction good as [| a good IH]; intros lines Hgood Hbad; cbn [cmap app].
  - rewrite Hbad. reflexivity.
  - cbn [cmap] in Hgood. destruct (f a) as [b | e']; cbn [cbind] in *; [| discriminate].
    destruct (cmap f good) as [bs | e']; cbn [cbind] in *; [| discriminate].
    rewrite (IH bs eq_refl Hbad). reflexivity.
Qed.

Lemma listModels_reads calls data e :
  upstream (models_call OPENAI_API_KEY) = Responded (Ok (Normal (JObj data))) ->
  array_map (own_or_undefined data "data") "data.data" format_model = Throw e ->
  listModels OPENAI_API_KEY upstream calls
  = (Normal (ReturnedEnvelope (error_envelope ("Error listing models: " ++ error_message e))),
     (calls ++ [models_call OPENAI_API_KEY])%list).
Proof.
  intros Hup Hmap. unfold listModels. step. rewrite Hup.
  rewrite !get_of_object. rewrite Hmap. reflexivity.
Qed.

End Failures.

(** X6.  Whatever the upstream fails a call with, be it [fetch] that rejects
    or the read of the body of the response, the handler's own [catch]
    reports it: an invocation that has called the upstream returns the
    handler's error envelope with the handler's prefix and the message of the
    error, the one call made being recorded. *)
Theorem upstream_rejection_is_reported :
  forall (E : Engine) env key upstream e calls,
    (forall arguments,
        rejects_with upstream (models_call key) e ->
        callTool env key upstream (invocation "listModels" arguments) calls
        = (Normal (ReturnedEnvelope
                     (error_envelope ("Error listing models: " ++ error_message e))),
           (calls ++ [models_call key])%list))
    /\ (forall fields,
          let run :=
            callTool env key upstream (invocation "chatCompletion" (JObj fields)) calls in
          snd run <> calls ->
          rejects_with upstream (chat_call_of key fields) e ->
          run = (Normal (ReturnedEnvelope (error_envelope ("Error: " ++ error_message e))),
                 (calls ++ [chat_call_of key fields])%list))
    /\ (forall fields,
          let run :=
            callTool env key upstream (invocation "createEmbedding" (JObj fields)) calls in
          snd run <> calls ->
          rejects_with upstream (embedding_call_of key fields) e ->
          run = (Normal (ReturnedEnvelope (error_envelope ("Error: " ++ error_message e))),
                 (calls ++ [embedding_call_of key fields])%list)).
Proof.
  intros E env key upstream e calls. split; [| split].
  - intros arguments H. apply callTool_listModels. apply listModels_rejection. exact H.
  - intros fields run Hreach H. subst run.
    apply callTool_chatCompletion_reaches in Hreach. destruct Hreach as [Hlog Hvalid].
    apply callTool_chatCompletion. apply chatCompletion_rejection; assumption.
  - intros fields run Hreach H. subst run.
    apply callTool_createEmbedding_reaches in Hreach. destruct Hreach as [Hlog Hvalid].
    apply callTool_createEmbedding. apply createEmbedding_rejection; assumption.
Qed.

(** X7.  [chatCompletion] does not check the body of a successful answer
    before it reads [choices[0].message.content]: when the upstream has been
    called and the body of its answer has no [choices], or an empty one, the
    read throws and the handler reports the engine's message for it as an
    error envelope, after the one call. *)
Theorem chatCompletion_without_choices :
  forall (E : Engine) env key upstream fields data calls,
    let run := callTool env key upstream (invocation "chatCompletion" (JObj fields)) calls in
    snd run <> calls ->
    upstream (chat_call_of key fields) = Responded (Ok (Normal (JObj data))) ->
    (own data "choices" = None ->
     run = (Normal (ReturnedEnvelope
                      (error_envelope
                         ("Error: " ++ fault_message (ReadOfNullish JUndefined "0")))),
            (calls ++ [chat_call_of key fields])%list))
    /\ (own data "choices" = Some (JArr []) ->
        run = (Normal (ReturnedEnvelope
                         (error_envelope
                            ("Error: "
                               ++ fault_message (ReadOfNullish JUndefined "message")))),
               (calls ++ [chat_call_of key fields])%list)).
Proof.
  intros E env key upstream fields data calls run Hreach Hup. subst run.
  apply callTool_chatCompletion_reaches in Hreach. destruct Hreach as [Hlog Hvalid].
  split; intros Hchoices; apply callTool_chatCompletion.
  - apply (chatCompletion_reads env key upstream _ _ _ data Hlog Hvalid Hup
             (Fault (ReadOfNullish JUndefined "0"))).
    unfold own_or_undefined. rewrite Hchoices. reflexivity.
  - apply (chatCompletion_reads env key upstream _ _ _ data Hlog Hvalid Hup
             (Fault (ReadOfNullish JUndefined "message"))).
    unfold own_or_undefined. rewrite Hchoices. reflexivity.
Qed.

(** X8.  When a [createEmbedding] invocation has called the upstream, and the
    upstream has answered with success and a body whose first entry of [data]
    holds an array under [embedding], the envelope reports the length of that
    array, not its elements, in one text item, and its metadata is exactly
    [model] and [usage] as the body has them. *)
Theorem createEmbedding_reports_dimension :
  forall (E : Engine) env key upstream fields data row vector calls,
    let run := callTool env key upstream (invocation "createEmbedding" (JObj fields)) calls in
    snd run <> calls ->
    upstream (embedding_call_of key fields) = Responded (Ok (Normal (JObj data))) ->
    get_index (own_or_undefined data "data") 0 = Normal row ->
    get row "embedding" = Normal (JArr vector) ->
    run
    = (Normal (ReturnedEnvelope
                 {| content :=
                      [text_item
                         (JStr ("Embedding generated successfully. Vector dimension: "
                                  ++ number_to_string
                                       (number_of_nat (List.length vector))))];
                    metadata := Some [("model", own_or_undefined data "model");
                                      ("usage", own_or_undefined data "usage")];
                    isError := None |}),
       (calls ++ [embedding_call_of key fields])%list).
Proof.
  intros E env key upstream fields data row vector calls run Hreach Hup Hrow Hembedding.
  subst run.
  apply callTool_createEmbedding_reaches in Hreach. destruct Hreach as [Hlog Hinput].
  apply callTool_createEmbedding.
  apply (createEmbedding_success env key upstream _ _ _ data row vector); assumption.
Qed.


(** X10.  Every call an invocation adds to the record goes to one of three
    endpoints of [https://api.openai.com], the models with [GET] and no body,
    the chat completions and the embeddings with [POST] and a body, and
    carries the [Authorization] header [Bearer <key>], which reads
    [Bearer undefined] when the key is not set. *)
Theorem calls_go_to_the_upstream :
  forall (E : Engine) env key upstream request calls call,
    In call (snd (callTool env key upstream request calls)) ->
    In call calls
    \/ (headers call = [("Authorization", bearer key); ("Content-Type", "application/json")]
        /\ ((url call = "https://api.openai.com/v1/models"
             /\ method call = "GET" /\ body call = None)
            \/ (url call = "https://api.openai.com/v1/chat/completions"
                /\ method call = "POST" /\ body call <> None)
            \/ (url call = "https://api.openai.com/v1/embeddings"
                /\ method call = "POST" /\ body call <> None))).
Proof.
  intros E env key upstream request calls call Hin.
  destruct (callTool_trace env key upstream request) as (returned & delta & Hissued & Hrun).
  rewrite Hrun in Hin. cbn [snd] in Hin. apply in_app_or in Hin.
  destruct Hin as [Hin | Hin]; [left; exact Hin | right].
  destruct Hissued as [-> | [-> | [[o ->] | [o ->]]]]; cbn [In] in Hin;
    try contradiction; destruct Hin as [<- | []]; (split; [reflexivity |]).
  - left. repeat split.
  - right; left. repeat split. discriminate.
  - right; right. repeat split. discriminate.
Qed.

(** X11.  [listModels] prints all the models or none: when one entry of the
    list cannot be formatted, the entries before it having been, the whole
    invocation is the error envelope with the message of that entry's error.
    An entry without [created] is such an entry: its date is invalid. *)
Theorem listModels_fails_on_one_entry :
  forall (E : Engine) env key upstream data good lines bad rest arguments calls,
    upstream (models_call key) = Responded (Ok (Normal (JObj data))) ->
    own_or_undefined data "data" = JArr (good ++ bad :: rest)%list ->
    Forall2 formats_as good lines ->
    (forall e,
        format_model bad = Throw e ->
        callTool env key upstream (invocation "listModels" arguments) calls
        = (Normal (ReturnedEnvelope
                     (error_envelope ("Error listing models: " ++ error_message e))),
           (calls ++ [models_call key])%list))
    /\ (forall entry id,
          bad = JObj entry ->
          own_or_undefined entry "id" = JStr id ->
          own entry "created" = None ->
          format_model bad = Throw (Fault InvalidTimeValue)).
Proof.
  intros E env key upstream data good lines bad rest arguments calls Hup Hdata Hgood.
  split.
  - intros e Hbad. apply callTool_listModels.
    apply (listModels_reads key upstream calls data e Hup).
    rewrite Hdata. cbn [array_map].
    apply (cmap_stops format_model good lines bad rest e); [| exact Hbad].
    apply cmap_format_model. exact Hgood.
  - intros entry id -> Hid Hcreated. unfold format_model.
    rewrite !get_of_object, Hid. cbn [cbind to_string].
    rewrite (own_or_undefined_absent _ _ Hcreated). reflexivity.
Qed.

(** X12.  [listModels] does not check that the body of a successful answer
    holds a list: when [data] is absent or null the read of [map] throws, and
    when it is anything else but an array [map] is not a function; either way
    the handler reports the engine's message as an error envelope. *)
Theorem listModels_without_a_list :
  forall (E : Engine) env key upstream data arguments calls,
    upstream (models_call key) = Responded (Ok (Normal (JObj data))) ->
    isArray (own_or_undefined data "data") = false ->
    callTool env key upstream (invocation "listModels" arguments) calls
    = (Normal (ReturnedEnvelope
                 (error_envelope
                    ("Error listing models: "
                       ++ fault_message
                            (if is_nullish (own_or_undefined data "data")
                             then ReadOfNullish (own_or_undefined data "data") "map"
                             else NotAFunction "data.data.map")))),
       (calls ++ [models_call key])%list).
Proof.
  intros E env key upstream data arguments calls Hup Hlist.
  apply callTool_listModels.
  apply (listModels_reads key upstream calls data
           (Fault (if is_nullish (own_or_undefined data "data")
                   then ReadOfNullish (own_or_undefined data "data") "map"
                   else NotAFunction "data.data.map")) Hup).
  destruct (own_or_undefined data "data"); try discriminate Hlist; reflexivity.
Qed.

(** X13.  The discovery handler and the registry agree: every tool that
    [listTools] describes resolves to a handler of its own in [HANDLERS], and
    an invocation that lacks an argument the descriptor lists as required,
    for want of the argument or of any arguments at all, is answered with an
    error envelope and without an upstream call.  When the invocation carries
    arguments and a [model] that [log] can print, the envelope is the
    handler's own. *)
Theorem listed_tools_are_handled :
  forall (E : Engine) env key upstream tool,
    In tool [LIST_MODELS_TOOL; CHAT_COMPLETION_TOOL; CREATE_EMBEDDING_TOOL] ->
    (exists handler, HANDLERS_get env key upstream (name tool) = OwnHandler handler)
    /\ forall arguments argument calls,
         In argument (required_arguments tool) ->
         is_nullish arguments = true \/ get arguments argument = Normal JUndefined ->
         exists envelope,
           callTool env key upstream (invocation (name tool) arguments) calls
           = (Normal (ReturnedEnvelope envelope), calls)
           /\ reports_error envelope
           /\ ((exists model, get arguments "model" = Normal model /\ loggable env model) ->
               exists message, envelope = error_envelope ("Error: " ++ message)).
Proof.
  intros E env key upstream tool [<- | [<- | [<- | []]]].
  - split; [eexists; reflexivity |]. intros arguments argument calls [].
  - split; [eexists; reflexivity |].
    intros arguments argument calls [<- | []] [Hnullish | Habsent].
    + destruct (callTool_chatCompletion_early env key upstream arguments calls
                  (or_introl Hnullish)) as [e Hrun].
      eexists. split; [exact Hrun |]. split.
      * split; [reflexivity | eexists; reflexivity].
      * intros (model & Hmodel & _). apply get_present in Hmodel. congruence.
    + destruct (get_total _ _ _ "model" Habsent) as [model Hmodel].
      destruct (logged_model_cases env "Executing chatCompletion with model:" model)
        as [[Hlog _] | (e & Hdebug & Htext & _)].
      * eexists. split; [| split].
        -- apply callTool_chatCompletion.
           apply (chatCompletion_rejects env key upstream _ _ model JUndefined);
             [exact Hmodel | exact Habsent | exact Hlog | reflexivity].
        -- split; [reflexivity | eexists; reflexivity].
        -- intros _. eexists. reflexivity.
      * pose proof (unprintable_not_loggable env model e Hdebug Htext) as Hnot.
        destruct (callTool_chatCompletion_early env key upstream arguments calls
                    (or_intror (ex_intro _ model (conj Hmodel Hnot)))) as [e' Hrun].
        eexists. split; [exact Hrun |]. split.
        -- split; [reflexivity | eexists; reflexivity].
        -- intros (model' & Hmodel' & Hlog). rewrite Hmodel in Hmodel'.
           injection Hmodel' as <-. contradiction.
  - split; [eexists; reflexivity |].
    intros arguments argument calls [<- | []] [Hnullish | Habsent].
    + destruct (callTool_createEmbedding_early env key upstream arguments calls
                  (or_introl Hnullish)) as [e Hrun].
      eexists. split; [exact Hrun |]. split.
      * split; [reflexivity | eexists; reflexivity].
      * intros (model & Hmodel & _). apply get_present in Hmodel. congruence.
    + destruct (get_total _ _ _ "model" Habsent) as [model Hmodel].
      destruct (logged_model_cases env "Executing createEmbedding with model:" model)
        as [[Hlog _] | (e & Hdebug & Htext & _)].
      * eexists. split; [| split].
        -- apply callTool_createEmbedding.
           apply (createEmbedding_rejects env key upstream _ _ model JUndefined);
             [exact Hmodel | exact Habsent | exact Hlog | reflexivity].
        -- split; [reflexivity | eexists; reflexivity].
        -- intros _. eexists. reflexivity.
      * pose proof (unprintable_not_loggable env model e Hdebug Htext) as Hnot.
        destruct (callTool_createEmbedding_early env key upstream arguments calls
                    (or_intror (ex_intro _ model (conj Hmodel Hnot)))) as [e' Hrun].
        eexists. split; [exact Hrun |]. split.
        -- split; [reflexivity | eexists; reflexivity].
        -- intros (model' & Hmodel' & Hlog). rewrite Hmodel in Hmodel'.
           injection Hmodel' as <-. contradiction.
Qed.

(** X14.  [chatCompletion] reads four of its arguments, [model], [messages],
    [temperature] and [max_tokens]: two argument objects that agree on these
    give the same result and the same upstream call, whatever else they hold,
    a [stream] argument included. *)
Theorem chatCompletion_reads_four_arguments :
  forall (E : Engine) env key upstream fields fields' calls,
    (forall argument,
        In argument ["model"; "messages"; "temperature"; "max_tokens"] ->
        own_or_undefined fields argument = own_or_undefined fields' argument) ->
    callTool env key upstream (invocation "chatCompletion" (JObj fields)) calls
    = callTool env key upstream (invocation "chatCompletion" (JObj fields')) calls.
Proof.
  intros E env key upstream fields fields' calls Hsame.
  unfold callTool. cbn [params_name invocation].
  rewrite HANDLERS_get_chatCompletion.
  unfold chatCompletion, invocation, params_arguments.
  rewrite !destructure_object, !bind_lift_normal.
  rewrite (Hsame "model"), (Hsame "messages"), (Hsame "temperature"),
    (Hsame "max_tokens") by (cbn [In]; tauto).
  reflexivity.
Qed.

(** X15.  [chatCompletion] calls the upstream exactly when [messages] is a
    non-empty array and [log] can print [model], as it can whenever [DEBUG]
    is not ["true"]; what the array holds is not checked. *)
Theorem chatCompletion_calls_iff_messages :
  forall (E : Engine) env key upstream fields calls,
    (exists first rest, own_or_undefined fields "messages" = JArr (first :: rest))
    /\ loggable env (own_or_undefined fields "model")
    <-> snd (callTool env key upstream (invocation "chatCompletion" (JObj fields)) calls)
        = (calls ++ [chat_call_of key fields])%list.
Proof.
  intros E env key upstream fields calls. split.
  - intros [Hmessages Hlog]. apply messages_accepted in Hmessages.
    apply (callTool_chatCompletion_call env key upstream fields calls Hmessages).
    exact Hlog.
  - intros Hcalls.
    assert (Hreach : snd (callTool env key upstream
                            (invocation "chatCompletion" (JObj fields)) calls) <> calls).
    { rewrite Hcalls. intros Hsame. apply (f_equal (@List.length _)) in Hsame.
      rewrite length_app in Hsame. cbn [List.length] in Hsame. lia. }
    apply callTool_chatCompletion_reaches in Hreach. destruct Hreach as [Hlog Hvalid].
    split; [apply messages_accepted; exact Hvalid | exact Hlog].
Qed.

(** *** Logging *)

(** An argument that is not an object or an array has a string form. *)
Lemma argument_text_of_primitive {E : Engine} argument :
  match argument with
  | Plain (JArr _) | Plain (JObj _) => False
  | _ => True
  end ->
  exists text, argument_text argument = Normal text.
Proof.
  destruct argument as [[| | [|] | x | s | items | fields] | name message];
    cbn; intros H; try contradiction; eauto.
Qed.

Lemma cmap_of_primitives {E : Engine} args :
  (forall argument,
      In argument args ->
      match argument with
      | Plain (JArr _) | Plain (JObj _) => False
      | _ => True
      end) ->
  exists texts, cmap argument_text args = Normal texts.
Proof.
  induction args as [| argument args IH]; intros H; cbn [cmap].
  - eauto.
  - destruct (argument_text_of_primitive argument (H argument (or_introl eq_refl)))
      as [text ->].
    destruct (IH (fun a Ha => H a (or_intror Ha))) as [texts ->].
    cbn [cbind]. eauto.
Qed.

(** X16.  [log] is silent unless [DEBUG] is exactly the string [true]: with
    the variable unset, or set to anything else, it writes nothing and
    returns, whatever its arguments, those without a string form included. *)
Theorem log_is_silent_without_DEBUG :
  forall (E : Engine) env now appendFileSync args trace,
    DEBUG env <> Some "true" ->
    log env now appendFileSync args trace = (Normal tt, trace).
Proof.
  intros E env now appendFileSync args trace Hoff. unfold log.
  destruct (debug env) eqn:Hdebug; [| reflexivity].
  apply debug_on in Hdebug. contradiction.
Qed.

(** X17.  With [DEBUG] on and arguments that have a string form, [log]
    returns, whatever the file system does: the line, the timestamp in
    brackets and the arguments joined by spaces, goes to the standard error
    stream first; at most one more effect follows, and it is a write of the
    line to the log file only when that write succeeded. *)
Theorem log_survives_the_file_system :
  forall (E : Engine) env now appendFileSync args texts trace,
    DEBUG env = Some "true" ->
    cmap argument_text args = Normal texts ->
    let message := "[" ++ iso_of_time now ++ "] " ++ join " " texts in
    exists more,
      log env now appendFileSync args trace
      = (Normal tt, (trace ++ ConsoleError message :: more)%list)
      /\ (List.length more <= 1)%nat
      /\ forall path data,
           In (AppendFile path data) more ->
           logPath env = Some path
           /\ data = message ++ newline
           /\ appendFileSync path data = None.
Proof.
  intros E env now appendFileSync args texts trace Hon Htexts message.
  unfold log. rewrite (proj2 (debug_on env) Hon), Htexts. fold message.
  destruct (logPath env) as [path |].
  - destruct (appendFileSync path (message ++ newline)) as [err |] eqn:Hwrite;
      eexists; (split; [rewrite <- app_assoc; reflexivity |]);
      (split; [cbn [List.length]; lia |]); intros path' data' [Hin | []].
    + discriminate Hin.
    + injection Hin as <- <-. auto.
  - exists []. split; [reflexivity |]. split; [cbn [List.length]; lia |].
    intros path data [].
Qed.

(** X18.  The log file is [openai-mcp-server.log] in the directory that
    [HOME] names, or, when [HOME] is unset or empty, in the one that
    [USERPROFILE] names; when neither names a directory there is no log
    file. *)
Theorem logPath_falls_back_to_USERPROFILE :
  forall env path,
    logPath env = Some path
    <-> exists directory,
          path = directory ++ "/openai-mcp-server.log"
          /\ directory <> ""
          /\ (HOME env = Some directory
              \/ ((HOME env = None \/ HOME env = Some "")
                  /\ USERPROFILE env = Some directory)).
Proof.
  intros env path. unfold logPath, homeDir. split.
  - destruct (HOME env) as [home |].
    + destruct (String.eqb_spec home "") as [-> | Hhome].
      * destruct (USERPROFILE env) as [profile |]; [| discriminate].
        destruct (String.eqb_spec profile "") as [-> | Hprofile]; [discriminate |].
        intros [= <-]. exists profile.
        split; [reflexivity | split; [exact Hprofile |]].
        right. split; [right; reflexivity | reflexivity].
      * rewrite (proj2 (String.eqb_neq home "") Hhome).
        intros [= <-]. exists home.
        split; [reflexivity | split; [exact Hhome | left; reflexivity]].
    + destruct (USERPROFILE env) as [profile |]; [| discriminate].
      destruct (String.eqb_spec profile "") as [-> | Hprofile]; [discriminate |].
      intros [= <-]. exists profile.
      split; [reflexivity | split; [exact Hprofile |]].
      right. split; [left; reflexivity | reflexivity].
  - intros (directory & -> & Hdirectory & [Hhome | [Hhome Hprofile]]);
      pose proof (proj2 (String.eqb_neq directory "") Hdirectory) as Hfilled.
    + rewrite Hhome, Hfilled. cbv beta iota. rewrite Hfilled. reflexivity.
    + destruct Hhome as [-> | ->]; cbn [String.eqb]; rewrite Hprofile;
        rewrite Hfilled; reflexivity.
Qed.

(** X19.  [log] throws only with [DEBUG] on and an argument that has no
    string form, and then it has written nothing; strings, numbers, booleans,
    [null], [undefined] and caught errors never make it throw. *)
Theorem log_throws_only_on_unprintable_arguments :
  forall (E : Engine) env now appendFileSync args trace,
    (forall e trace',
        log env now appendFileSync args trace = (Throw e, trace') ->
        DEBUG env = Some "true"
        /\ cmap argument_text args = Throw e
        /\ trace' = trace)
    /\ ((forall argument,
            In argument args ->
            match argument with
            | Plain (JArr _) | Plain (JObj _) => False
            | _ => True
            end) ->
        exists trace', log env now appendFileSync args trace = (Normal tt, trace')).
Proof.
  intros E env now appendFileSync args trace. split.
  - intros e trace'. unfold log.
    destruct (debug env) eqn:Hdebug; [| discriminate].
    apply debug_on in Hdebug.
    destruct (cmap argument_text args) as [texts | e0].
    + destruct (logPath env) as [path |]; [| discriminate].
      destruct (appendFileSync path _); discriminate.
    + intros [= <- <-]. auto.
  - intros Hprintable. destruct (cmap_of_primitives args Hprintable) as [texts Htexts].
    unfold log. rewrite Htexts.
    destruct (debug env); [| eauto].
    destruct (logPath env) as [path |]; [| eauto].
    destruct (appendFileSync path _); eauto.
Qed.

(** *** The envelope of a registered tool *)

(** X20.  When a registered tool is invoked with arguments that are present,
    an object or not, and a [model] that [log] can print, what comes back was
    built by the handler itself, success or error: an envelope with exactly
    one text item and a [metadata] property.  [listModels] gives one even
    without arguments. *)
Theorem registered_tools_return_full_envelopes :
  forall (E : Engine) env key upstream toolName arguments calls,
    toolName = "listModels"
    \/ ((toolName = "chatCompletion" \/ toolName = "createEmbedding")
        /\ exists model, get arguments "model" = Normal model /\ loggable env model) ->
    exists v properties flag calls',
      callTool env key upstream (invocation toolName arguments) calls
      = (Normal (ReturnedEnvelope
                   {| content := [text_item v];
                      metadata := Some properties;
                      isError := flag |}),
         calls').
Proof.
  intros E env key upstream toolName arguments calls
         [-> | [[-> | ->] (model & Hmodel & Hlog)]].
  - destruct (listModels_calls_once key upstream calls) as [returned Hrun].
    destruct (listModels_returns_envelope key upstream _ _ _ Hrun)
      as (v & properties & flag & ->).
    exists v, properties, flag. eexists.
    apply callTool_listModels. exact Hrun.
  - destruct (chatCompletion env key upstream (invocation "chatCompletion" arguments) calls)
      as [[returned | e] calls'] eqn:Hrun.
    + destruct (chatCompletion_returns_envelope env key upstream _ _ _ _ Hrun)
        as (v & properties & flag & ->).
      exists v, properties, flag, calls'.
      apply callTool_chatCompletion. exact Hrun.
    + apply chatCompletion_throws in Hrun.
      cbn [invocation params_arguments] in Hrun.
      destruct Hrun as [_ [Hnullish | (model' & Hmodel' & Hdebug & Htext)]].
      * apply get_present in Hmodel. congruence.
      * rewrite Hmodel in Hmodel'. injection Hmodel' as <-.
        destruct (unprintable_not_loggable env model e Hdebug Htext Hlog).
  - destruct (createEmbedding env key upstream (invocation "createEmbedding" arguments) calls)
      as [[returned | e] calls'] eqn:Hrun.
    + destruct (createEmbedding_returns_envelope env key upstream _ _ _ _ Hrun)
        as (v & properties & flag & ->).
      exists v, properties, flag, calls'.
      apply callTool_createEmbedding. exact Hrun.
    + apply createEmbedding_throws in Hrun.
      cbn [invocation params_arguments] in Hrun.
      destruct Hrun as [_ [Hnullish | (model' & Hmodel' & Hdebug & Htext)]].
      * apply get_present in Hmodel. congruence.
      * rewrite Hmodel in Hmodel'. injection Hmodel' as <-.
        destruct (unprintable_not_loggable env model e Hdebug Htext Hlog).
Qed.

(** *** A model that cannot be printed *)

(** X21.  With [DEBUG] on, [chatCompletion] and [createEmbedding] print
    their [model] argument before they enter their [try]: when the argument
    has no string form the invocation ends there, whatever the other
    arguments are.  The invocation handler reports the exception in an
    envelope without [metadata], and the upstream is not called.  An object
    with an own [toString] property is such an argument. *)
Theorem unprintable_model_reaches_the_dispatcher :
  forall (E : Engine) env key upstream toolName arguments model e calls,
    toolName = "chatCompletion" \/ toolName = "createEmbedding" ->
    DEBUG env = Some "true" ->
    get arguments "model" = Normal model ->
    to_string model = Throw e ->
    callTool env key upstream (invocation toolName arguments) calls
    = (Normal (ReturnedEnvelope (dispatch_error_envelope ("Error: " ++ error_message e))),
       calls)
    /\ (forall fields v,
          model = JObj fields -> own fields "toString" = Some v ->
          e = Fault NoPrimitiveValue).
Proof.
  intros E env key upstream toolName arguments model e calls Hname Hdebug Hmodel Htext.
  split.
  - destruct Hname as [-> | ->].
    + apply callTool_chatCompletion_throws.
      apply (chatCompletion_log_throws env key upstream _ _ model e calls Hmodel).
      apply logged_model_throws. auto.
    + apply callTool_createEmbedding_throws.
      apply (createEmbedding_log_throws env key upstream _ _ model e calls Hmodel).
      apply logged_model_throws. auto.
  - intros fields v -> Hown. cbn [to_string] in Htext. rewrite Hown in Htext.
    injection Htext as <-. reflexivity.
Qed.

(** ** The further properties on stub upstreams *)

(** A listing that succeeds: the envelope has no [isError], and the one call
    was answered. *)
Lemma success_needs_an_upstream_answer_witness :
  exists envelope calls',
    callTool (E := Node) quiet None (stub_upstream (Ok (Normal two_models)))
      (invocation "listModels" (JObj [])) []
    = (Normal (ReturnedEnvelope envelope), calls')
    /\ (isError envelope = Some true \/ isError envelope = None)
    /\ (isError envelope = None ->
        metadata envelope <> None
        /\ exists call data,
             calls' = ([] ++ [call])%list
             /\ stub_upstream (Ok (Normal two_models)) call = Responded (Ok (Normal data))).
Proof.
  exact (success_needs_an_upstream_answer Node quiet None (stub_upstream (Ok (Normal two_models)))
           (invocation "listModels" (JObj [])) [] eq_refl).
Defined.

(** An unknown tool: the text of the error envelope starts with [Error]. *)
Lemma error_text_starts_with_Error_witness :
  exists envelope calls',
    callTool (E := Node) quiet None no_upstream (invocation "nope" (JObj [])) []
    = (Normal (ReturnedEnvelope envelope), calls')
    /\ (isError envelope = Some true ->
        exists rest, content envelope = [text_item (JStr ("Error" ++ rest))]).
Proof.
  exact (error_text_starts_with_Error Node quiet None no_upstream
           (invocation "nope" (JObj [])) [] eq_refl).
Defined.

(** [chatCompletion] invoked without arguments. *)
Lemma absent_arguments_reach_the_dispatcher_witness :
  callTool (E := Node) quiet None no_upstream (invocation "chatCompletion" JUndefined) []
  = (Normal (ReturnedEnvelope
               (dispatch_error_envelope
                  "Error: Cannot destructure property 'model' of 'request.params.arguments' as it is undefined.")),
     []).
Proof.
  apply (absent_arguments_reach_the_dispatcher Node quiet None no_upstream "chatCompletion"
           JUndefined []); [left |]; reflexivity.
Defined.

(** The tool name [valueOf]. *)
Lemma inherited_names_are_called_witness :
  callTool (E := Node) quiet None no_upstream (invocation "valueOf" (JObj [])) []
  = (Normal (ReturnedEnvelope
               (dispatch_error_envelope "Error: Cannot convert undefined or null to object")),
     []).
Proof.
  exact (inherited_names_are_called Node quiet None no_upstream "valueOf" op_valueOf (JObj []) []
           eq_refl).
Defined.

(** An upstream that cannot be reached, for the three tools, with [DEBUG]
    on. *)
Lemma upstream_rejection_is_reported_witness :
  callTool (E := Node) debugging None no_upstream (invocation "listModels" JUndefined) []
  = (Normal (ReturnedEnvelope (error_envelope "Error listing models: fetch failed")),
     [models_call None])
  /\ callTool (E := Node) debugging None no_upstream
       (invocation "chatCompletion" (JObj hello)) []
     = (Normal (ReturnedEnvelope (error_envelope "Error: fetch failed")),
        [chat_call_of None hello])
  /\ callTool (E := Node) debugging None no_upstream
       (invocation "createEmbedding" (JObj [("input", JStr "text")])) []
     = (Normal (ReturnedEnvelope (error_envelope "Error: fetch failed")),
        [embedding_call_of None [("input", JStr "text")]]).
Proof.
  destruct (upstream_rejection_is_reported Node debugging None no_upstream
              (Err "fetch failed") [])
    as (Hmodels & Hchat & Hembedding).
  split; [| split].
  - apply Hmodels. left. reflexivity.
  - apply (Hchat hello); [vm_compute; discriminate | left; reflexivity].
  - apply (Hembedding [("input", JStr "text")]);
      [vm_compute; discriminate | left; reflexivity].
Defined.

(** A chat completion answered with an empty [choices]. *)
Lemma chatCompletion_without_choices_witness :
  callTool (E := Node) debugging None
    (stub_upstream (Ok (Normal (JObj [("model", JStr "x"); ("choices", JArr [])]))))
    (invocation "chatCompletion" (JObj hello)) []
  = (Normal (ReturnedEnvelope
               (error_envelope
                  "Error: Cannot read properties of undefined (reading 'message')")),
     [chat_call_of None hello]).
Proof.
  destruct (chatCompletion_without_choices Node debugging None
              (stub_upstream (Ok (Normal (JObj [("model", JStr "x"); ("choices", JArr [])]))))
              hello [("model", JStr "x"); ("choices", JArr [])] [])
    as [_ Hempty]; [vm_compute; discriminate | reflexivity |].
  apply Hempty. reflexivity.
Defined.

(** An embedding of three numbers. *)
Lemma createEmbedding_reports_dimension_witness :
  callTool (E := Node) debugging None (stub_upstream (Ok (Normal (JObj one_embedding))))
    (invocation "createEmbedding" (JObj [("input", JStr "text")])) []
  = (Normal (ReturnedEnvelope
               {| content :=
                    [text_item
                       (JStr "Embedding generated successfully. Vector dimension: 3")];
                  metadata := Some [("model", JStr "text-embedding-ada-002");
                                    ("usage", JObj [("total_tokens", JNum 2%float)])];
                  isError := None |}),
     [embedding_call_of None [("input", JStr "text")]]).
Proof.
  apply (createEmbedding_reports_dimension Node debugging None
           (stub_upstream (Ok (Normal (JObj one_embedding))))
           [("input", JStr "text")] one_embedding
           (JObj [("embedding", JArr [JNum 1%float; JNum 2%float; JNum 3%float])])
           [JNum 1%float; JNum 2%float; JNum 3%float] []);
    [vm_compute; discriminate | reflexivity | reflexivity | reflexivity].
Defined.


(** The call of [listModels] when the key is not set. *)
Lemma calls_go_to_the_upstream_witness :
  In (models_call None) []
  \/ (headers (models_call None)
      = [("Authorization", "Bearer undefined"); ("Content-Type", "application/json")]
      /\ ((url (models_call None) = "https://api.openai.com/v1/models"
           /\ method (models_call None) = "GET" /\ body (models_call None) = None)
          \/ (url (models_call None) = "https://api.openai.com/v1/chat/completions"
              /\ method (models_call None) = "POST" /\ body (models_call None) <> None)
          \/ (url (models_call None) = "https://api.openai.com/v1/embeddings"
              /\ method (models_call None) = "POST" /\ body (models_call None) <> None))).
Proof.
  apply (calls_go_to_the_upstream Node quiet None no_upstream
           (invocation "listModels" (JObj [])) [] (models_call None)).
  left. reflexivity.
Defined.

(** A listing whose second entry has no creation time. *)
Lemma listModels_fails_on_one_entry_witness :
  callTool (E := Node) quiet None (stub_upstream (Ok (Normal (JObj undated_model))))
    (invocation "listModels" (JObj [])) []
  = (Normal (ReturnedEnvelope (error_envelope "Error listing models: Invalid time value")),
     [models_call None]).
Proof.
  destruct (listModels_fails_on_one_entry Node quiet None
              (stub_upstream (Ok (Normal (JObj undated_model)))) undated_model
              [JObj [("id", JStr "m1"); ("created", JNum 0%float)]]
              ["- m1 (created: 1970-01-01T00:00:00.000Z)"]
              (JObj [("id", JStr "m2")])
              [JObj [("id", JStr "m3"); ("created", JNum 100%float)]]
              (JObj []) [] eq_refl eq_refl)
    as [Hfails Hundated].
  - apply Forall2_cons; [| apply Forall2_nil].
    exists [("id", JStr "m1"); ("created", JNum 0%float)], "m1", 0%float, 0.
    repeat split.
  - apply (Hfails (Fault InvalidTimeValue)).
    apply (Hundated [("id", JStr "m2")] "m2"); reflexivity.
Defined.

(** A body whose [data] is an object, and one without [data]. *)
Lemma listModels_without_a_list_witness :
  callTool (E := Node) quiet None (stub_upstream (Ok (Normal (JObj [("data", JObj [])]))))
    (invocation "listModels" (JObj [])) []
  = (Normal (ReturnedEnvelope
               (error_envelope "Error listing models: data.data.map is not a function")),
     [models_call None])
  /\ callTool (E := Node) quiet None (stub_upstream (Ok (Normal (JObj []))))
       (invocation "listModels" (JObj [])) []
     = (Normal (ReturnedEnvelope
                  (error_envelope
                     "Error listing models: Cannot read properties of undefined (reading 'map')")),
        [models_call None]).
Proof.
  split.
  - exact (listModels_without_a_list Node quiet None
             (stub_upstream (Ok (Normal (JObj [("data", JObj [])]))))
             [("data", JObj [])] (JObj []) [] eq_refl eq_refl).
  - exact (listModels_without_a_list Node quiet None (stub_upstream (Ok (Normal (JObj []))))
             [] (JObj []) [] eq_refl eq_refl).
Defined.

(** [chatCompletion] without the [messages] that its descriptor requires,
    and without arguments at all. *)
Lemma listed_tools_are_handled_witness :
  (exists message,
     callTool (E := Node) debugging None no_upstream
       (invocation "chatCompletion" (JObj [])) []
     = (Normal (ReturnedEnvelope (error_envelope ("Error: " ++ message))), []))
  /\ (exists envelope,
        callTool (E := Node) debugging None no_upstream
          (invocation "chatCompletion" JUndefined) []
        = (Normal (ReturnedEnvelope envelope), [])
        /\ reports_error envelope).
Proof.
  destruct (listed_tools_are_handled Node debugging None no_upstream CHAT_COMPLETION_TOOL)
    as [_ Hrequired].
  - right; left. reflexivity.
  - split.
    + destruct (Hrequired (JObj []) "messages" [] (or_introl eq_refl) (or_intror eq_refl))
        as (envelope & Hrun & _ & Hown).
      destruct Hown as [message ->].
      * exists JUndefined. split; [reflexivity |].
        intros _. eexists. reflexivity.
      * exists message. exact Hrun.
    + destruct (Hrequired JUndefined "messages" [] (or_introl eq_refl) (or_introl eq_refl))
        as (envelope & Hrun & Herror & _).
      exists envelope. split; assumption.
Defined.

(** With [DEBUG] on, [messages] alone reach the upstream, and the same
    [messages] with a [model] that cannot be printed do not. *)
Lemma chatCompletion_calls_iff_messages_witness :
  let unprintable := (("model", JObj [("toString", JNum 1%float)]) :: hello)%list in
  snd (callTool (E := Node) debugging None no_upstream
         (invocation "chatCompletion" (JObj hello)) [])
  = [chat_call_of None hello]
  /\ snd (callTool (E := Node) debugging None no_upstream
            (invocation "chatCompletion" (JObj unprintable)) [])
     <> [chat_call_of None unprintable].
Proof.
  intros unprintable. split.
  - apply (proj1 (chatCompletion_calls_iff_messages Node debugging None no_upstream
                    hello [])).
    split; [do 2 eexists; reflexivity | intros _; eexists; reflexivity].
  - intros Hcalls.
    apply (proj2 (chatCompletion_calls_iff_messages Node debugging None no_upstream
                    unprintable [])) in Hcalls.
    destruct Hcalls as [_ Hlog]. destruct (Hlog eq_refl) as [text Htext].
    discriminate Htext.
Defined.

(** The tool name [toLocaleString], which names itself in its message. *)
Example inherited_toLocaleString_message :
  callTool (E := Node) quiet None no_upstream (invocation "toLocaleString" (JObj [])) []
  = (Normal (ReturnedEnvelope
               (dispatch_error_envelope
                  "Error: Object.prototype.toLocaleString called on null or undefined")),
     []).
Proof. reflexivity. Qed.

(** A [stream] argument changes nothing. *)
Lemma chatCompletion_reads_four_arguments_witness :
  callTool (E := Node) quiet None no_upstream
    (invocation "chatCompletion" (JObj (("stream", JBool true) :: hello))) []
  = callTool (E := Node) quiet None no_upstream (invocation "chatCompletion" (JObj hello)) [].
Proof.
  apply (chatCompletion_reads_four_arguments Node quiet None no_upstream
           (("stream", JBool true) :: hello) hello []).
  intros argument [<- | [<- | [<- | [<- | []]]]]; reflexivity.
Defined.

(** [DEBUG=TRUE] does not turn logging on, even for an argument that has no
    string form. *)
Lemma log_is_silent_without_DEBUG_witness :
  log (E := Node) shouting 0 writable
    [Plain (JStr "Executing chatCompletion with model:");
     Plain (JObj [("toString", JNum 1%float)])] []
  = (Normal tt, []).
Proof.
  apply (log_is_silent_without_DEBUG Node shouting 0 writable). discriminate.
Defined.

(** A line logged where the file cannot be written. *)
Lemma log_survives_the_file_system_witness :
  exists more,
    log (E := Node) debugging 0 read_only [Plain (JStr "Executing listModels")] []
    = (Normal tt,
       ConsoleError "[1970-01-01T00:00:00.000Z] Executing listModels" :: more)
    /\ (List.length more <= 1)%nat
    /\ forall path data,
         In (AppendFile path data) more ->
         logPath debugging = Some path
         /\ data = "[1970-01-01T00:00:00.000Z] Executing listModels" ++ newline
         /\ read_only path data = None.
Proof.
  exact (log_survives_the_file_system Node debugging 0 read_only
           [Plain (JStr "Executing listModels")] ["Executing listModels"] []
           eq_refl eq_refl).
Defined.

(** A caught error among the arguments. *)
Lemma log_throws_only_on_unprintable_arguments_witness :
  exists trace',
    log (E := Node) debugging 0 writable
      [Plain (JStr "Error listing models:");
       ErrorObject "Error" "OpenAI API error: rate limited"] []
    = (Normal tt, trace').
Proof.
  destruct (log_throws_only_on_unprintable_arguments Node debugging 0 writable
              [Plain (JStr "Error listing models:");
               ErrorObject "Error" "OpenAI API error: rate limited"] [])
    as [_ Hprintable].
  apply Hprintable.
  intros argument [<- | [<- | []]]; exact I.
Defined.

(** With [DEBUG] on, a [model] that has no string form makes the first [log]
    of [chatCompletion] throw. *)
Example log_of_unprintable_model :
  log (E := Node) debugging 0 writable
    [Plain (JStr "Executing chatCompletion with model:");
     Plain (JObj [("toString", JNum 1%float)])] []
  = (Throw (Fault NoPrimitiveValue), []).
Proof. reflexivity. Qed.

(** The line and the file for an empty [HOME]. *)
Example log_falls_back :
  log (E := Node) debugging 100000 writable
    [Plain (JStr "Received tool call:"); Plain (JStr "listModels")] []
  = (Normal tt,
     [ConsoleError "[1970-01-01T00:01:40.000Z] Received tool call: listModels";
      AppendFile "/home/me/openai-mcp-server.log"
        ("[1970-01-01T00:01:40.000Z] Received tool call: listModels" ++ newline)]).
Proof. reflexivity. Qed.

(** [createEmbedding] invoked with a number for arguments: the handler's own
    envelope. *)
Lemma registered_tools_return_full_envelopes_witness :
  exists v properties flag calls',
    callTool (E := Node) debugging None no_upstream
      (invocation "createEmbedding" (JNum 1%float)) []
    = (Normal (ReturnedEnvelope
                 {| content := [text_item v];
                    metadata := Some properties;
                    isError := flag |}),
       calls').
Proof.
  apply (registered_tools_return_full_envelopes Node debugging None no_upstream
           "createEmbedding" (JNum 1%float) []).
  right. split; [right; reflexivity |].
  exists JUndefined. split; [reflexivity |].
  intros _. eexists. reflexivity.
Defined.

(** [DEBUG=true] and a [model] that is an object with an own [toString]
    property. *)
Lemma unprintable_model_reaches_the_dispatcher_witness :
  callTool (E := Node) debugging None no_upstream
    (invocation "chatCompletion"
       (JObj (("model", JObj [("toString", JNum 1%float)]) :: hello))) []
  = (Normal (ReturnedEnvelope
               (dispatch_error_envelope "Error: Cannot convert object to primitive value")),
     []).
Proof.
  apply (unprintable_model_reaches_the_dispatcher Node debugging None no_upstream
           "chatCompletion" (JObj (("model", JObj [("toString", JNum 1%float)]) :: hello))
           (JObj [("toString", JNum 1%float)]) (Fault NoPrimitiveValue) []);
    [left | | |]; reflexivity.
Defined.
